(** * BusinessInfoSearchService: keyword and date-range search

    A shallow embedding of
    [src/modules/base-info/business-info/services/business-info-search.service.ts]
    and of the collaborators it talks to (the query builder, the record
    store, the engine's [Date] and the date formatter), followed by the
    properties of the two operations [search] and [searchByDateRange]. *)

From Stdlib Require Import List String Ascii Bool ZArith NArith Lia Sorted.
From Stdlib Require Import DecimalString Permutation.
Import ListNotations.

Local Open Scope Z_scope.

(** ** Strings of the engine

    A run-time string is a sequence of UTF-16 code units.  The literals of the
    source (SQL fragments, field names, messages) are kept as [string]s and
    injected with [js] where the code mixes them with run-time text. *)

Definition jsstring := list N.

Definition js (s : string) : jsstring :=
  map N_of_ascii (list_ascii_of_string s).

(** [WhiteSpace] and [LineTerminator] code points, the ones
    [String.prototype.trim] strips. *)
Definition isWhiteSpace (c : N) : bool :=
  ((9 <=? c) && (c <=? 13) || (c =? 32) || (c =? 160) || (c =? 5760)
   || (8192 <=? c) && (c <=? 8202) || (c =? 8232) || (c =? 8233)
   || (c =? 8239) || (c =? 8287) || (c =? 12288) || (c =? 65279))%N.

Fixpoint trimStart (s : jsstring) : jsstring :=
  match s with
  | c :: s' => if isWhiteSpace c then trimStart s' else s
  | [] => []
  end.

Definition trimEnd (s : jsstring) : jsstring := rev (trimStart (rev s)).

Definition trim (s : jsstring) : jsstring := trimEnd (trimStart s).

(** ** The date pattern

    A regular expression anchored at both ends is a chain of quantified
    character classes; each quantifier takes the matcher of what follows. *)

Definition charclass := N -> bool.

Definition digit : charclass := fun c => ((48 <=? c) && (c <=? 57))%N.

(** The class [[-/]]. *)
Definition dash_or_slash : charclass := fun c => ((c =? 45) || (c =? 47))%N.

Definition matcher := jsstring -> bool.

Fixpoint exactly (p : charclass) (n : nat) (k : matcher) (s : jsstring) : bool :=
  match n with
  | O => k s
  | S n' => match s with
            | c :: s' => p c && exactly p n' k s'
            | [] => false
            end
  end.

(** Greedy: one more character if possible, otherwise what follows. *)
Fixpoint atmost (p : charclass) (n : nat) (k : matcher) (s : jsstring) : bool :=
  match n with
  | O => k s
  | S n' => match s with
            | c :: s' => p c && atmost p n' k s'
            | [] => false
            end || k s
  end.

(** [p{lo,hi}] *)
Definition quant (p : charclass) (lo hi : nat) (k : matcher) : matcher :=
  exactly p lo (atmost p (hi - lo) k).

(** [$] without the [m] flag: the end of the input, nothing else. *)
Definition at_end : matcher :=
  fun s => match s with [] => true | _ :: _ => false end.

(** [/^\d{4}[-/]\d{1,2}[-/]\d{1,2}$/.test] *)
Definition datePattern : matcher :=
  quant digit 4 4
    (quant dash_or_slash 1 1
       (quant digit 1 2
          (quant dash_or_slash 1 1
             (quant digit 1 2 at_end)))).

(** ** The engine's [Date]

    A [Date] holds a time value in milliseconds since the epoch, or [NaN]
    for an invalid date. *)

Definition jsdate := option Z.

Definition msPerDay : Z := 86400000.

(** Day number of a civil date, the month counted from 1; a day past the end
    of the month runs into the next one, as [MakeDay] does. *)
Definition MakeDay (year month date : Z) : Z :=
  let y := if month <=? 2 then year - 1 else year in
  let era := y / 400 in
  let yoe := y - era * 400 in
  let mp := if month <=? 2 then month + 9 else month - 3 in
  let doy := (153 * mp + 2) / 5 in
  era * 146097 + (yoe * 365 + yoe / 4 - yoe / 100 + doy) - 719468 + (date - 1).

Definition digitValue (c : N) : Z := Z.of_N c - 48.

(** The date-only form [YYYY-MM-DD] of the date-time string format. *)
Definition isoDateOnly (s : jsstring) : option (Z * Z * Z) :=
  match s with
  | [y1; y2; y3; y4; h1; m1; m2; h2; d1; d2] =>
      if forallb digit [y1; y2; y3; y4; m1; m2; d1; d2] && (h1 =? 45)%N && (h2 =? 45)%N
      then Some (digitValue y1 * 1000 + digitValue y2 * 100
                 + digitValue y3 * 10 + digitValue y4,
                 digitValue m1 * 10 + digitValue m2,
                 digitValue d1 * 10 + digitValue d2)
      else None
  | _ => None
  end.

Inductive exn : Type :=
| BadRequestException (message : string)
| RangeError (message : string).

(** What [toISOString] returns: the ISO-8601 rendering
    [YYYY-MM-DDTHH:mm:ss.sssZ] of a time value, kept as the time value it
    denotes. *)
Inductive isostring : Type := IsoString (t : Z).

Definition toISOString (d : jsdate) : exn + isostring :=
  match d with
  | Some t => inr (IsoString t)
  | None => inl (RangeError "Invalid time value")
  end.

(** ** The entity *)

(** Modelled from the spec: the entity [BusinessInfo]
    (entities/business-info.entity), with the attributes of the data model.
    [T] is the type of the two date fields: a time value in the store, a
    display string once formatted. *)
Record BusinessInfo (T : Type) : Type := mkBusinessInfo {
  businessName : jsstring;
  businessNumber : jsstring;
  businessType : jsstring;
  businessCeo : jsstring;
  businessItem : jsstring;
  corporateRegistrationNumber : jsstring;
  businessTel : jsstring;
  businessMobile : jsstring;
  businessCeoEmail : jsstring;
  businessFax : jsstring;
  businessZipcode : jsstring;
  businessAddress : jsstring;
  businessAddressDetail : jsstring;
  isDeleted : bool;
  createdAt : T;
  updatedAt : T
}.

Arguments mkBusinessInfo {T}.
Arguments businessName {T}.
Arguments businessNumber {T}.
Arguments businessType {T}.
Arguments businessCeo {T}.
Arguments businessItem {T}.
Arguments corporateRegistrationNumber {T}.
Arguments businessTel {T}.
Arguments businessMobile {T}.
Arguments businessCeoEmail {T}.
Arguments businessFax {T}.
Arguments businessZipcode {T}.
Arguments businessAddress {T}.
Arguments businessAddressDetail {T}.
Arguments isDeleted {T}.
Arguments createdAt {T}.
Arguments updatedAt {T}.

Definition row := BusinessInfo Z.

(** ** The query builder

    The builder records what the service asks for: the where clauses with
    their connectives, the bound parameters (one object for the whole query,
    shared with the builder handed to a [Brackets] callback), the ordering
    and the window. *)

Inductive param : Type :=
| PString (s : jsstring)
| PIso (s : isostring)
| PDate (d : jsdate).

Definition ObjectLiteral := list (string * param).

Fixpoint setParameter (k : string) (v : param) (o : ObjectLiteral) : ObjectLiteral :=
  match o with
  | [] => [(k, v)]
  | (k', v') :: o' =>
      if String.eqb k' k then (k, v) :: o' else (k', v') :: setParameter k v o'
  end.

Definition setParameters (ps o : ObjectLiteral) : ObjectLiteral :=
  fold_left (fun acc kv => setParameter (fst kv) (snd kv) acc) ps o.

Fixpoint getParameter (k : string) (o : ObjectLiteral) : option param :=
  match o with
  | [] => None
  | (k', v) :: o' => if String.eqb k' k then Some v else getParameter k o'
  end.

Inductive where_type : Type := WSimple | WAnd | WOr.

#[warnings="-register-all"]
Inductive condition : Type :=
| Sql (text : string)
| Nested (clauses : list (where_type * condition)).

Definition WhereClause : Type := where_type * condition.

Inductive direction : Type := ASC | DESC.

Record QueryBuilder : Type := mkQueryBuilder {
  alias : string;
  wheres : list WhereClause;
  parameters : ObjectLiteral;
  orderBys : list (string * direction);
  skip : option Z;
  take : option Z
}.

Definition createQueryBuilder (a : string) : QueryBuilder :=
  mkQueryBuilder a [] [] [] None None.

(** What [where], [andWhere] and [orWhere] accept. *)
Inductive where_arg : Type :=
| Str (sql : string)
| Brackets (whereFactory : QueryBuilder -> QueryBuilder).

(** A bracketed group is built by a fresh builder that shares the parameter
    object of its parent. *)
Definition getWhereCondition (w : where_arg) (qb : QueryBuilder)
  : condition * ObjectLiteral :=
  match w with
  | Str sql => (Sql sql, parameters qb)
  | Brackets whereFactory =>
      let sub := whereFactory
                   (mkQueryBuilder (alias qb) [] (parameters qb) [] None None) in
      (Nested (wheres sub), parameters sub)
  end.

Definition pushWhere (t : where_type) (reset : bool) (w : where_arg)
    (ps : ObjectLiteral) (qb : QueryBuilder) : QueryBuilder :=
  let (c, shared) := getWhereCondition w qb in
  mkQueryBuilder (alias qb)
    ((if reset then [] else wheres qb) ++ [(t, c)])
    (setParameters ps shared)
    (orderBys qb) (skip qb) (take qb).

Definition where_ := pushWhere WSimple true.
Definition andWhere := pushWhere WAnd false.
Definition orWhere := pushWhere WOr false.

Definition orderBy (sort : string) (order : direction) (qb : QueryBuilder)
  : QueryBuilder :=
  mkQueryBuilder (alias qb) (wheres qb) (parameters qb) [(sort, order)]
    (skip qb) (take qb).

Definition skip_ (n : Z) (qb : QueryBuilder) : QueryBuilder :=
  mkQueryBuilder (alias qb) (wheres qb) (parameters qb) (orderBys qb)
    (Some n) (take qb).

Definition take_ (n : Z) (qb : QueryBuilder) : QueryBuilder :=
  mkQueryBuilder (alias qb) (wheres qb) (parameters qb) (orderBys qb)
    (skip qb) (Some n).

(** Method chaining. *)
Notation "x '|>' f" := (f x) (at level 45, left associativity, only parsing).

(** ** The record store

    The store evaluates the recorded query over the table.  Only the part of
    SQL the service produces is understood: a condition is
    [operand operator operand], an operand a column of the alias, a bound
    parameter, the literal [false], or [DATE(...)] of one of them. *)

Inductive value : Type :=
| VText (s : jsstring)
| VBool (b : bool)
| VTime (t : Z)
| VDay (d : Z)
| VNull.

Fixpoint compareText (a b : jsstring) : comparison :=
  match a, b with
  | [], [] => Eq
  | [], _ :: _ => Lt
  | _ :: _, [] => Gt
  | x :: a', y :: b' =>
      match (x ?= y)%N with
      | Eq => compareText a' b'
      | c => c
      end
  end.

Definition compareValue (v w : value) : comparison :=
  match v, w with
  | VText a, VText b => compareText a b
  | VBool a, VBool b => Bool.compare a b
  | VTime a, VTime b => a ?= b
  | VDay a, VDay b => a ?= b
  | _, _ => Eq
  end.

(** [LIKE]: [%] stands for any run of characters, [_] for any one. *)
Fixpoint like (pattern s : jsstring) : bool :=
  match pattern with
  | [] => at_end s
  | c :: pattern' =>
      if (c =? 37)%N then
        (fix anywhere (s : jsstring) : bool :=
           like pattern' s
           || match s with
              | [] => false
              | _ :: s' => anywhere s'
              end) s
      else
        match s with
        | [] => false
        | d :: s' => ((c =? 95) || (c =? d))%N && like pattern' s'
        end
  end.

Definition column (name : string) (r : row) : value :=
  if String.eqb name "businessName" then VText (businessName r)
  else if String.eqb name "businessNumber" then VText (businessNumber r)
  else if String.eqb name "businessType" then VText (businessType r)
  else if String.eqb name "businessCeo" then VText (businessCeo r)
  else if String.eqb name "businessItem" then VText (businessItem r)
  else if String.eqb name "corporateRegistrationNumber"
       then VText (corporateRegistrationNumber r)
  else if String.eqb name "businessTel" then VText (businessTel r)
  else if String.eqb name "businessMobile" then VText (businessMobile r)
  else if String.eqb name "businessCeoEmail" then VText (businessCeoEmail r)
  else if String.eqb name "businessFax" then VText (businessFax r)
  else if String.eqb name "businessZipcode" then VText (businessZipcode r)
  else if String.eqb name "businessAddress" then VText (businessAddress r)
  else if String.eqb name "businessAddressDetail"
       then VText (businessAddressDetail r)
  else if String.eqb name "isDeleted" then VBool (isDeleted r)
  else if String.eqb name "createdAt" then VTime (createdAt r)
  else if String.eqb name "updatedAt" then VTime (updatedAt r)
  else VNull.

Definition stripPrefix (p s : string) : option string :=
  if String.prefix p s
  then Some (String.substring (String.length p)
               (String.length s - String.length p) s)
  else None.

Definition stripSuffix (p s : string) : option string :=
  let n := (String.length s - String.length p)%nat in
  if (String.length p <=? String.length s)%nat
     && String.eqb (String.substring n (String.length p) s) p
  then Some (String.substring 0 n s)
  else None.

Fixpoint words (s : string) : list string :=
  match s with
  | EmptyString => [EmptyString]
  | String c s' =>
      if Ascii.eqb c " " then EmptyString :: words s'
      else match words s' with
           | w :: ws => String c w :: ws
           | [] => [String c EmptyString]
           end
  end.

Inductive operand : Type :=
| Column (name : string)
| Param (name : string)
| FalseLit
| DateOf (o : operand).

Definition parseAtom (a : string) (s : string) : option operand :=
  if String.eqb s "false" then Some FalseLit
  else match stripPrefix ":" s with
       | Some name => Some (Param name)
       | None =>
           match stripPrefix (a ++ ".") s with
           | Some name => Some (Column name)
           | None => None
           end
       end.

Definition parseOperand (a : string) (s : string) : option operand :=
  match stripPrefix "DATE(" s with
  | Some rest =>
      match stripSuffix ")" rest with
      | Some inner => option_map DateOf (parseAtom a inner)
      | None => None
      end
  | None => parseAtom a s
  end.

Definition comparable (v w : value) : bool :=
  match v, w with
  | VText _, VText _ | VBool _, VBool _ | VTime _, VTime _ | VDay _, VDay _ => true
  | _, _ => false
  end.

Definition isEq (c : comparison) : bool :=
  match c with Eq => true | _ => false end.

Definition isLt (c : comparison) : bool :=
  match c with Lt => true | _ => false end.

Definition isGt (c : comparison) : bool :=
  match c with Gt => true | _ => false end.

(** A chain of clauses without brackets: [AND] binds tighter than [OR]; the
    connective of the first clause is not rendered. *)
Fixpoint disjuncts (acc : bool) (cs : list (where_type * bool)) : bool :=
  match cs with
  | [] => acc
  | (WOr, b) :: cs' => acc || disjuncts b cs'
  | (_, b) :: cs' => disjuncts (acc && b) cs'
  end.

Definition evalClauses (cs : list (where_type * bool)) : bool :=
  match cs with
  | [] => true
  | (_, b) :: cs' => disjuncts b cs'
  end.

Section Sorting.

Context {A : Type} (leb : A -> A -> bool).

Fixpoint insert (x : A) (l : list A) : list A :=
  match l with
  | [] => [x]
  | y :: l' => if leb x y then x :: l else y :: insert x l'
  end.

Definition sort (l : list A) : list A := fold_right insert [] l.

End Sorting.

Definition default {A : Type} (d : A) (o : option A) : A :=
  match o with
  | Some a => a
  | None => d
  end.

Record SearchResult : Type := mkSearchResult {
  data : list (BusinessInfo jsstring);
  total : Z;
  page : Z;
  limit : Z
}.

Local Open Scope string_scope.

Section Service.

(** The rows of the table behind [businessInfoRepository]. *)
Variable table : list row.

(** Conventions of the store: the text a timestamp column shows to [LIKE],
    and the day [DATE()] takes from a timestamp. *)
Variable castText : Z -> jsstring.
Variable sqlDATE : Z -> Z.

(** What the engine's [Date] makes of a string that is not in the
    date-time string format. *)
Variable legacyParse : jsstring -> jsdate.

(** The display form the date formatter gives a timestamp. *)
Variable formatDate : Z -> jsstring.

(** *** Evaluation of a query *)

Fixpoint evalOperand (ps : ObjectLiteral) (r : row) (o : operand) : value :=
  match o with
  | Column name => column name r
  | Param name =>
      match getParameter name ps with
      | Some (PString s) => VText s
      | Some (PIso (IsoString t)) => VTime t
      | Some (PDate (Some t)) => VTime t
      | Some (PDate None) | None => VNull
      end
  | FalseLit => VBool false
  | DateOf o' =>
      match evalOperand ps r o' with
      | VTime t => VDay (sqlDATE t)
      | _ => VNull
      end
  end.

Definition asText (v : value) : option jsstring :=
  match v with
  | VText s => Some s
  | VTime t => Some (castText t)
  | _ => None
  end.

Definition evalOperator (op : string) (v w : value) : bool :=
  if String.eqb op "=" then comparable v w && isEq (compareValue v w)
  else if String.eqb op ">=" then comparable v w && negb (isLt (compareValue v w))
  else if String.eqb op "<=" then comparable v w && negb (isGt (compareValue v w))
  else if String.eqb op "LIKE" then
    match asText v, asText w with
    | Some s, Some pattern => like pattern s
    | _, _ => false
    end
  else false.

Definition evalSql (a : string) (ps : ObjectLiteral) (r : row) (text : string)
  : bool :=
  match words text with
  | [l; op; rhs] =>
      match parseOperand a l, parseOperand a rhs with
      | Some x, Some y => evalOperator op (evalOperand ps r x) (evalOperand ps r y)
      | _, _ => false
      end
  | _ => false
  end.

Fixpoint evalCondition (a : string) (ps : ObjectLiteral) (r : row)
    (c : condition) : bool :=
  match c with
  | Sql text => evalSql a ps r text
  | Nested clauses =>
      evalClauses (map (fun tc : where_type * condition =>
                          let (t, c') := tc in (t, evalCondition a ps r c'))
                       clauses)
  end.

Definition matches (qb : QueryBuilder) (r : row) : bool :=
  evalCondition (alias qb) (parameters qb) r (Nested (wheres qb)).

Fixpoint compareRows (a : string) (orders : list (string * direction))
    (r1 r2 : row) : comparison :=
  match orders with
  | [] => Eq
  | (sort, order) :: orders' =>
      let key := default sort (stripPrefix (a ++ ".") sort) in
      let c := compareValue (column key r1) (column key r2) in
      match (match order with ASC => c | DESC => CompOpp c end) with
      | Eq => compareRows a orders' r1 r2
      | c' => c'
      end
  end.

Definition rowLeb (qb : QueryBuilder) (r1 r2 : row) : bool :=
  negb (isGt (compareRows (alias qb) (orderBys qb) r1 r2)).

(** The window [skip]/[take] cuts out of the ordered rows.  Stores agree on
    it for a skip of at least 0 and a take of at least 1; for other values
    some refuse the query and some drop the bound, and the conversion to
    [nat] stands for none of them: what is returned is stated for a page and
    a limit of at least 1. *)
Definition window (qb : QueryBuilder) (l : list row) : list row :=
  let skipped := match skip qb with
                 | Some n => skipn (Z.to_nat n) l
                 | None => l
                 end in
  match take qb with
  | Some n => firstn (Z.to_nat n) skipped
  | None => skipped
  end.

(** The matching rows in order, before the window is cut out. *)
Definition matchSet (qb : QueryBuilder) : list row :=
  sort (rowLeb qb) (filter (matches qb) table).

Definition runQuery (qb : QueryBuilder) : list row * Z :=
  (window qb (matchSet qb), Z.of_nat (List.length (matchSet qb))).

(** *** Effects: the queries sent to the store, and exceptions *)

Definition M (A : Type) : Type :=
  list QueryBuilder -> (exn + A) * list QueryBuilder.

Definition ret {A : Type} (a : A) : M A := fun sent => (inr a, sent).

Definition throw {A : Type} (e : exn) : M A := fun sent => (inl e, sent).

Definition bind {A B : Type} (m : M A) (f : A -> M B) : M B :=
  fun sent =>
    match m sent with
    | (inr a, sent') => f a sent'
    | (inl e, sent') => (inl e, sent')
    end.

Definition lift {A : Type} (x : exn + A) : M A := fun sent => (x, sent).

Definition getManyAndCount (qb : QueryBuilder) : M (list row * Z) :=
  fun sent => (inr (runQuery qb), (sent ++ [qb])%list).

Notation "x <- m ;; f" := (bind m (fun x => f))
  (at level 61, m at next level, right associativity).
Notation "' p <- m ;; f" := (bind m (fun x => let p := x in f))
  (at level 61, p pattern, m at next level, right associativity).

(** *** The date formatter *)

(** Modelled from the spec: [DateFormatter.formatBusinessInfoArrayDates]
    (utils/date-formatter.util): every record of the array has its
    [createdAt] and [updatedAt] rendered as display strings, and no other
    field altered. *)
Definition formatBusinessInfoDates (r : row) : BusinessInfo jsstring :=
  mkBusinessInfo (businessName r) (businessNumber r) (businessType r)
    (businessCeo r) (businessItem r) (corporateRegistrationNumber r)
    (businessTel r) (businessMobile r) (businessCeoEmail r) (businessFax r)
    (businessZipcode r) (businessAddress r) (businessAddressDetail r)
    (isDeleted r) (formatDate (createdAt r)) (formatDate (updatedAt r)).

Definition formatBusinessInfoArrayDates (rows : list row)
  : list (BusinessInfo jsstring) :=
  map formatBusinessInfoDates rows.

(** *** The service *)

Definition validFields : list string :=
  [ "businessName";
    "businessNumber";
    "businessType";
    "businessCeo";
    "businessItem";
    "corporateRegistrationNumber";
    "businessTel";
    "businessMobile";
    "businessCeoEmail";
    "businessFax";
    "businessZipcode";
    "businessAddress";
    "businessAddressDetail";
    "createdAt";
    "updatedAt" ].

(** [new Date(s)] for a string [s]: the date-only form is UTC midnight of
    that day when month and day are in bounds and an invalid date when they
    are not; any other string is left to the engine. *)
Definition Date_parse (s : jsstring) : jsdate :=
  match isoDateOnly s with
  | Some (y, m, d) =>
      if ((1 <=? m) && (m <=? 12) && (1 <=? d) && (d <=? 31))%Z
      then Some (MakeDay y m d * msPerDay)
      else None
  | None => legacyParse s
  end.

Definition addTextSearchConditions (qb : QueryBuilder) (keyword : jsstring)
  : QueryBuilder :=
  fold_left
    (fun qb field =>
       qb |> orWhere (Str ("business." ++ field ++ " LIKE :keyword"))
               [("keyword", PString (js "%" ++ keyword ++ js "%")%list)])
    validFields qb.

Definition addDateSearchConditions (qb : QueryBuilder) (keyword : jsstring)
  : QueryBuilder :=
  let searchDate := Date_parse keyword in
  qb |> orWhere (Str "DATE(business.createdAt) = DATE(:searchDate)")
          [("searchDate", PDate searchDate)]
     |> orWhere (Str "DATE(business.updatedAt) = DATE(:searchDate)")
          [("searchDate", PDate searchDate)].

Definition isDateSearch (keyword : jsstring) : bool := datePattern keyword.

Definition invalidDateMessage : string :=
  "날짜 형식이 올바르지 않습니다. (YYYY-MM-DD 또는 YYYY/MM/DD)".

Definition validateDateRange (startDate endDate : jsstring) : M unit :=
  if negb (datePattern startDate) || negb (datePattern endDate)
  then throw (BadRequestException invalidDateMessage)
  else ret tt.

Definition searchQuery (trimmedKeyword : jsstring) (offset limit : Z)
  : QueryBuilder :=
  createQueryBuilder "business"
    |> where_ (Str "business.isDeleted = false") []
    |> andWhere
         (Brackets (fun qb =>
            let qb := addTextSearchConditions qb trimmedKeyword in
            if isDateSearch trimmedKeyword
            then addDateSearchConditions qb trimmedKeyword
            else qb)) []
    |> orderBy "business.businessName" ASC
    |> skip_ offset
    |> take_ limit.

Definition search (keyword : jsstring) (page limit : option Z)
  : M SearchResult :=
  let page := default 1 page in
  let limit := default 10 limit in
  let trimmedKeyword := trim keyword in
  let offset := (page - 1) * limit in
  let queryBuilder := searchQuery trimmedKeyword offset limit in
  '(data, total) <- getManyAndCount queryBuilder ;;
  ret (mkSearchResult (formatBusinessInfoArrayDates data) total page limit).

Definition dateRangeQuery (startDate endDate : isostring) (offset limit : Z)
  : QueryBuilder :=
  createQueryBuilder "business"
    |> where_ (Str "business.isDeleted = false") []
    |> andWhere (Str "business.createdAt >= :startDate")
         [("startDate", PIso startDate)]
    |> andWhere (Str "business.createdAt <= :endDate")
         [("endDate", PIso endDate)]
    |> orderBy "business.createdAt" DESC
    |> skip_ offset
    |> take_ limit.

Definition searchByDateRange (startDate endDate : jsstring)
    (page limit : option Z) : M SearchResult :=
  let page := default 1 page in
  let limit := default 10 limit in
  _ <- validateDateRange startDate endDate ;;
  let offset := (page - 1) * limit in
  startIso <- lift (toISOString (Date_parse startDate)) ;;
  endIso <- lift (toISOString (Date_parse endDate)) ;;
  let queryBuilder := dateRangeQuery startIso endIso offset limit in
  '(data, total) <- getManyAndCount queryBuilder ;;
  ret (mkSearchResult (formatBusinessInfoArrayDates data) total page limit).

End Service.

(** ** Vocabulary of the statements *)

(** The fifteen [LIKE] conditions and the two date conditions of [search]. *)
Definition textConditions : list condition :=
  map (fun field => Sql ("business." ++ field ++ " LIKE :keyword")) validFields.

Definition dateConditions : list condition :=
  [Sql "DATE(business.createdAt) = DATE(:searchDate)";
   Sql "DATE(business.updatedAt) = DATE(:searchDate)"].

(** [LIKE] of one field of a row against a pattern. *)
Definition fieldLike (castText : Z -> jsstring) (pattern : jsstring) (r : row)
    (field : string) : bool :=
  match asText castText (column field r) with
  | Some s => like pattern s
  | None => false
  end.

(** The day of [createdAt] or of [updatedAt] is the day of the date. *)
Definition onDay (sqlDATE : Z -> Z) (d : jsdate) (r : row) : bool :=
  match d with
  | Some t => (sqlDATE (createdAt r) =? sqlDATE t)%Z
              || (sqlDATE (updatedAt r) =? sqlDATE t)%Z
  | None => false
  end.

Definition notDeleted (r : row) : bool := negb (isDeleted r).

(** Not deleted and created between two instants, both included. *)
Definition createdBetween (a b : Z) (r : row) : bool :=
  notDeleted r && (a <=? createdAt r)%Z && (createdAt r <=? b)%Z.

(** The filter of [search] on a trimmed keyword. *)
Definition keywordMatch (castText : Z -> jsstring) (sqlDATE : Z -> Z)
    (legacyParse : jsstring -> jsdate) (keyword : jsstring) (r : row) : bool :=
  notDeleted r
  && (existsb (fieldLike castText (js "%" ++ keyword ++ js "%")%list r) validFields
      || datePattern keyword && onDay sqlDATE (Date_parse legacyParse keyword) r).

Definition byNameAsc (r1 r2 : row) : bool :=
  negb (isGt (compareText (businessName r1) (businessName r2))).

Definition byCreatedDesc (r1 r2 : row) : bool :=
  (createdAt r2 <=? createdAt r1)%Z.

(** [limit] rows after the first [offset] ones. *)
Definition pageOf {A : Type} (offset limit : Z) (l : list A) : list A :=
  firstn (Z.to_nat limit) (skipn (Z.to_nat offset) l).

(** One record as the formatter leaves it. *)
Definition formatted (formatDate : Z -> jsstring) (r : row)
    (b : BusinessInfo jsstring) : Prop :=
  businessName b = businessName r
  /\ businessNumber b = businessNumber r
  /\ businessType b = businessType r
  /\ businessCeo b = businessCeo r
  /\ businessItem b = businessItem r
  /\ corporateRegistrationNumber b = corporateRegistrationNumber r
  /\ businessTel b = businessTel r
  /\ businessMobile b = businessMobile r
  /\ businessCeoEmail b = businessCeoEmail r
  /\ businessFax b = businessFax r
  /\ businessZipcode b = businessZipcode r
  /\ businessAddress b = businessAddress r
  /\ businessAddressDetail b = businessAddressDetail r
  /\ isDeleted b = isDeleted r
  /\ createdAt b = formatDate (createdAt r)
  /\ updatedAt b = formatDate (updatedAt r).

(** The strings the date pattern describes: four digits, a separator, one or
    two digits, a separator, one or two digits. *)
Definition dateShaped (s : jsstring) : Prop :=
  exists y p m q d,
    s = (y ++ p :: m ++ q :: d)%list
    /\ List.length y = 4%nat
    /\ (1 <= List.length m <= 2)%nat
    /\ (1 <= List.length d <= 2)%nat
    /\ forallb digit y = true /\ forallb digit m = true
    /\ forallb digit d = true
    /\ dash_or_slash p = true /\ dash_or_slash q = true.


(** A matcher that accepts only strings ending in a digit. *)
Definition endsInDigit (k : matcher) : Prop :=
  forall s, k s = true -> exists r c, s = (r ++ [c])%list /\ digit c = true.

(** ** The keyword search against a store that may fail

    [search] with the answer of the store left open: [getManyAndCount] sends
    the query and hands back what the store answers, rows and count or an
    exception. *)

Definition getManyAndCountVia (answer : QueryBuilder -> exn + (list row * Z))
    (qb : QueryBuilder) : M (list row * Z) :=
  fun sent => (answer qb, (sent ++ [qb])%list).

Definition searchVia (legacyParse : jsstring -> jsdate)
    (formatDate : Z -> jsstring)
    (answer : QueryBuilder -> exn + (list row * Z))
    (keyword : jsstring) (page limit : option Z) : M SearchResult :=
  let page := default 1%Z page in
  let limit := default 10%Z limit in
  let trimmedKeyword := trim keyword in
  let offset := ((page - 1) * limit)%Z in
  let queryBuilder := searchQuery legacyParse trimmedKeyword offset limit in
  bind (getManyAndCountVia answer queryBuilder)
    (fun found =>
       ret (mkSearchResult (formatBusinessInfoArrayDates formatDate (fst found))
              (snd found) page limit)).

(** ** A concrete setting

    A store and a host on UTC, used where a statement is tried on explicit
    inputs. *)

Definition decimal (n : Z) : jsstring := js (NilEmpty.string_of_int (Z.to_int n)).

Definition demoCastText (t : Z) : jsstring := decimal t.

Definition demoDATE (t : Z) : Z := (t / msPerDay)%Z.

Fixpoint number (acc : Z) (s : jsstring) : Z * jsstring :=
  match s with
  | c :: s' => if digit c then number (acc * 10 + digitValue c)%Z s' else (acc, s)
  | [] => (acc, [])
  end.

(** A host on UTC reading [Y/M/D] and the unpadded forms as local midnight. *)
Definition demoLegacyParse (s : jsstring) : jsdate :=
  if datePattern s then
    let (y, s1) := number 0 s in
    let (m, s2) := number 0 (tl s1) in
    let (d, _) := number 0 (tl s2) in
    if ((1 <=? m) && (m <=? 12) && (1 <=? d) && (d <=? 31))%Z
    then Some (MakeDay y m d * msPerDay)%Z
    else None
  else None.

Definition demoFormatDate (t : Z) : jsstring := (js "day " ++ decimal (t / msPerDay))%list.

Definition demoRow (name : string) (deleted : bool) (created updated : Z) : row :=
  mkBusinessInfo (js name) (js "123-45-67890") (js "retail") (js "Kim")
    (js "books") (js "110111-1234567") (js "02-123-4567") (js "010-1234-5678")
    (js "kim@example.com") (js "02-123-4568") (js "04524") (js "Seoul")
    (js "3F") deleted created updated.

Definition demoTable : list row :=
  [ demoRow "beta" false 1704067200000 1704067200000;
    demoRow "alpha" false 1705276800000 1705363200000;
    demoRow "gamma" true 1705276800000 1705276800000;
    demoRow "Alpha" false 1706659200000 1706659200000 ].

(** * Properties *)

(** ** Lists: insertion sort and windows *)

Section SortingFacts.

Context {A : Type} (leb : A -> A -> bool).

Hypothesis leb_total : forall a b, leb a b = false -> leb b a = true.

Let le (a b : A) : Prop := leb a b = true.

Lemma insert_In (x y : A) (l : list A) :
  In y (insert leb x l) <-> y = x \/ In y l.
Proof.
  induction l as [|z l IH]; simpl.
  - intuition.
  - destruct (leb x z); simpl; rewrite ?IH; intuition.
Qed.

Lemma sort_In (y : A) (l : list A) : In y (sort leb l) <-> In y l.
Proof.
  induction l as [|x l IH]; simpl.
  - tauto.
  - rewrite insert_In, IH. intuition.
Qed.

Lemma insert_length (x : A) (l : list A) :
  List.length (insert leb x l) = S (List.length l).
Proof.
  induction l as [|z l IH]; simpl; [reflexivity|].
  destruct (leb x z); simpl; congruence.
Qed.

Lemma sort_length (l : list A) : List.length (sort leb l) = List.length l.
Proof.
  induction l as [|x l IH]; simpl; [reflexivity|].
  rewrite insert_length. congruence.
Qed.

Lemma insert_HdRel (a x : A) (l : list A) :
  le a x -> HdRel le a l -> HdRel le a (insert leb x l).
Proof.
  intros Hax Hal. destruct l as [|z l]; simpl.
  - constructor. exact Hax.
  - destruct (leb x z); constructor.
    + exact Hax.
    + inversion Hal; assumption.
Qed.

Lemma insert_Sorted (x : A) (l : list A) :
  Sorted le l -> Sorted le (insert leb x l).
Proof.
  induction 1 as [|z l Hs IH Hd]; simpl.
  - repeat constructor.
  - destruct (leb x z) eqn:E.
    + constructor; [constructor; assumption|]. constructor. exact E.
    + constructor; [exact IH|].
      apply insert_HdRel; [|exact Hd]. apply leb_total. exact E.
Qed.

Lemma sort_Sorted (l : list A) : Sorted le (sort leb l).
Proof.
  induction l as [|x l IH]; simpl.
  - constructor.
  - apply insert_Sorted. exact IH.
Qed.

End SortingFacts.

Section WindowFacts.

Context {A : Type} (R : A -> A -> Prop).

Lemma Sorted_skipn (n : nat) (l : list A) :
  Sorted R l -> Sorted R (skipn n l).
Proof.
  revert l. induction n as [|n IH]; intros l Hs; simpl; [exact Hs|].
  destruct l as [|x l]; [constructor|].
  apply IH. inversion Hs; assumption.
Qed.

Lemma Sorted_firstn (n : nat) (l : list A) :
  Sorted R l -> Sorted R (firstn n l).
Proof.
  revert l. induction n as [|n IH]; intros l Hs; simpl; [constructor|].
  destruct l as [|x l]; [constructor|].
  inversion Hs as [|? ? Hs' Hd]; subst.
  constructor; [apply IH; exact Hs'|].
  destruct l as [|y l]; destruct n; simpl; constructor.
  inversion Hd; assumption.
Qed.

End WindowFacts.

Lemma In_skipn {A : Type} (n : nat) (l : list A) (x : A) : In x (skipn n l) -> In x l.
Proof.
  revert l. induction n as [|n IH]; intros [|y l]; simpl; auto.
Qed.

Lemma In_firstn {A : Type} (n : nat) (l : list A) (x : A) : In x (firstn n l) -> In x l.
Proof.
  revert l. induction n as [|n IH]; intros [|y l]; simpl; intuition.
Qed.

(** ** The order of the store *)

Lemma compareText_antisym (a b : jsstring) :
  compareText b a = CompOpp (compareText a b).
Proof.
  revert b. induction a as [|x a IH]; intros [|y b]; simpl; try reflexivity.
  rewrite (N.compare_antisym x y).
  destruct (x ?= y)%N; simpl; auto.
Qed.

Lemma compareValue_antisym (v w : value) :
  compareValue w v = CompOpp (compareValue v w).
Proof.
  destruct v, w; simpl; try reflexivity.
  - apply compareText_antisym.
  - destruct b, b0; reflexivity.
  - apply Z.compare_antisym.
  - apply Z.compare_antisym.
Qed.

Lemma compareRows_antisym (a : string) (orders : list (string * direction))
    (r1 r2 : row) :
  compareRows a orders r2 r1 = CompOpp (compareRows a orders r1 r2).
Proof.
  induction orders as [|[sort order] orders IH]; simpl; [reflexivity|].
  rewrite (compareValue_antisym
             (column (default sort (stripPrefix (a ++ ".") sort)) r1)).
  destruct (compareValue _ _), order; simpl; auto.
Qed.

Lemma rowLeb_total (qb : QueryBuilder) (r1 r2 : row) :
  rowLeb qb r1 r2 = false -> rowLeb qb r2 r1 = true.
Proof.
  unfold rowLeb. rewrite (compareRows_antisym _ _ r1 r2).
  destruct (compareRows _ _ r1 r2); simpl; congruence.
Qed.

Lemma isEq_Zcompare (a b : Z) : isEq (a ?= b)%Z = (a =? b)%Z.
Proof.
  destruct (Z.compare_spec a b) as [H|H|H]; simpl; symmetry.
  - apply Z.eqb_eq. exact H.
  - apply Z.eqb_neq. lia.
  - apply Z.eqb_neq. lia.
Qed.

Lemma notLt_Zcompare (a b : Z) : negb (isLt (a ?= b)%Z) = (b <=? a)%Z.
Proof.
  destruct (Z.compare_spec a b) as [H|H|H]; simpl; symmetry.
  - apply Z.leb_le. lia.
  - apply Z.leb_gt. lia.
  - apply Z.leb_le. lia.
Qed.

Lemma notGt_Zcompare (a b : Z) : negb (isGt (a ?= b)%Z) = (a <=? b)%Z.
Proof.
  destruct (Z.compare_spec a b) as [H|H|H]; simpl; symmetry.
  - apply Z.leb_le. lia.
  - apply Z.leb_le. lia.
  - apply Z.leb_gt. lia.
Qed.

(** ** The pattern and [trim] *)

Lemma white_not_digit (c : N) : isWhiteSpace c = true -> digit c = false.
Proof.
  unfold isWhiteSpace, digit. intros H.
  apply andb_false_iff.
  destruct (N.leb_spec 48 c) as [H1|H1]; [|left; reflexivity].
  destruct (N.leb_spec c 57) as [H2|H2]; [|right; reflexivity].
  exfalso.
  repeat (apply orb_true_iff in H; destruct H as [H|H]);
    repeat match goal with
      | H : (_ && _)%bool = true |- _ => apply andb_true_iff in H; destruct H
      | H : (_ <=? _)%N = true |- _ => apply N.leb_le in H
      | H : (_ =? _)%N = true |- _ => apply N.eqb_eq in H
      end; lia.
Qed.

Lemma endsInDigit_exactly (p : charclass) (n : nat) (k : matcher) :
  endsInDigit k -> endsInDigit (exactly p n k).
Proof.
  intros Hk. induction n as [|n IH]; intros s H; simpl in H.
  - apply Hk. exact H.
  - destruct s as [|c s]; [discriminate|].
    apply andb_true_iff in H. destruct H as [_ H].
    destruct (IH s H) as (r & d & -> & Hd).
    exists (c :: r), d. split; [reflexivity|exact Hd].
Qed.

Lemma endsInDigit_atmost (p : charclass) (n : nat) (k : matcher) :
  endsInDigit k -> endsInDigit (atmost p n k).
Proof.
  intros Hk. induction n as [|n IH]; intros s H; simpl in H.
  - apply Hk. exact H.
  - apply orb_true_iff in H. destruct H as [H|H]; [|apply Hk; exact H].
    destruct s as [|c s]; [discriminate|].
    apply andb_true_iff in H. destruct H as [_ H].
    destruct (IH s H) as (r & d & -> & Hd).
    exists (c :: r), d. split; [reflexivity|exact Hd].
Qed.

Lemma endsInDigit_quant (p : charclass) (lo hi : nat) (k : matcher) :
  endsInDigit k -> endsInDigit (quant p lo hi k).
Proof.
  intros Hk. apply endsInDigit_exactly, endsInDigit_atmost, Hk.
Qed.

Lemma endsInDigit_last : endsInDigit (quant digit 1 2 at_end).
Proof.
  intros s H. unfold quant in H. simpl in H.
  destruct s as [|c [|d [|e s]]]; simpl in H.
  - discriminate.
  - exists [], c.
    destruct (digit c); simpl in H; try discriminate. auto.
  - exists [c], d.
    destruct (digit c), (digit d); simpl in H; try discriminate. auto.
  - destruct (digit c), (digit d); simpl in H; discriminate.
Qed.

Lemma datePattern_ends_in_digit : endsInDigit datePattern.
Proof.
  unfold datePattern.
  do 4 apply endsInDigit_quant. apply endsInDigit_last.
Qed.

Lemma datePattern_starts_with_digit (c : N) (s : jsstring) :
  datePattern (c :: s) = true -> digit c = true.
Proof.
  unfold datePattern, quant. simpl. intros H.
  apply andb_true_iff in H. tauto.
Qed.

Lemma datePattern_leading_white (c : N) (s : jsstring) :
  isWhiteSpace c = true -> datePattern (c :: s) = false.
Proof.
  intros Hc. destruct (datePattern (c :: s)) eqn:E; [|reflexivity].
  apply datePattern_starts_with_digit in E.
  rewrite (white_not_digit c Hc) in E. discriminate.
Qed.

Lemma datePattern_trailing_white (c : N) (s : jsstring) :
  isWhiteSpace c = true -> datePattern (s ++ [c])%list = false.
Proof.
  intros Hc. destruct (datePattern (s ++ [c])%list) eqn:E; [|reflexivity].
  destruct (datePattern_ends_in_digit _ E) as (r & d & Heq & Hd).
  apply app_inj_tail in Heq. destruct Heq as [_ <-].
  rewrite (white_not_digit c Hc) in Hd. discriminate.
Qed.

Lemma trimStart_app_white (c : N) (s : jsstring) :
  isWhiteSpace c = true ->
  trimStart (s ++ [c])%list = []
  \/ trimStart (s ++ [c])%list = (trimStart s ++ [c])%list.
Proof.
  intros Hc. induction s as [|x s IH]; simpl.
  - rewrite Hc. left. reflexivity.
  - destruct (isWhiteSpace x); [exact IH|]. right. reflexivity.
Qed.

Lemma trim_leading_white (c : N) (s : jsstring) :
  isWhiteSpace c = true -> trim (c :: s) = trim s.
Proof.
  intros Hc. unfold trim. simpl. rewrite Hc. reflexivity.
Qed.

Lemma trimStart_nil_trailing (c : N) (s : jsstring) :
  isWhiteSpace c = true ->
  trimStart (s ++ [c])%list = [] -> trimStart s = [].
Proof.
  intros Hc. induction s as [|x s IH]; simpl; [reflexivity|].
  destruct (isWhiteSpace x); [exact IH|discriminate].
Qed.

Lemma trim_trailing_white (c : N) (s : jsstring) :
  isWhiteSpace c = true -> trim (s ++ [c])%list = trim s.
Proof.
  intros Hc. unfold trim.
  destruct (trimStart_app_white c s Hc) as [H|H].
  - rewrite H, (trimStart_nil_trailing c s Hc H). reflexivity.
  - rewrite H. unfold trimEnd. rewrite rev_app_distr. simpl.
    rewrite Hc. reflexivity.
Qed.

(** ** [LIKE] against [%%] *)

Lemma like_percent (s : jsstring) : like [37%N] s = true.
Proof.
  induction s as [|c s IH]; simpl in *; [reflexivity|exact IH].
Qed.

Lemma like_percent_then (pattern s : jsstring) :
  (forall s', like pattern s' = true) -> like (37%N :: pattern) s = true.
Proof.
  intros H. destruct s; simpl; rewrite H; reflexivity.
Qed.

Lemma like_percent_percent (s : jsstring) : like [37%N; 37%N] s = true.
Proof.
  apply like_percent_then, like_percent.
Qed.

(** ** What the two queries ask for *)

Section QueryFacts.

Variable table : list row.
Variable castText : Z -> jsstring.
Variable sqlDATE : Z -> Z.
Variable legacyParse : jsstring -> jsdate.
Variable formatDate : Z -> jsstring.

Lemma searchQuery_wheres (keyword : jsstring) (offset limit : Z) :
  wheres (searchQuery legacyParse keyword offset limit) =
  [(WSimple, Sql "business.isDeleted = false");
   (WAnd, Nested (map (pair WOr)
                    (textConditions
                       ++ if datePattern keyword then dateConditions else [])%list))].
Proof.
  unfold searchQuery, isDateSearch. destruct (datePattern keyword); reflexivity.
Qed.

Lemma searchQuery_parameters (keyword : jsstring) (offset limit : Z) :
  parameters (searchQuery legacyParse keyword offset limit) =
  ("keyword", PString (js "%" ++ keyword ++ js "%")%list)
    :: (if datePattern keyword
        then [("searchDate", PDate (Date_parse legacyParse keyword))]
        else []).
Proof.
  unfold searchQuery, isDateSearch. destruct (datePattern keyword); reflexivity.
Qed.

Lemma evalSql_notDeleted (ps : ObjectLiteral) (r : row) :
  evalSql castText sqlDATE "business" ps r "business.isDeleted = false"
  = notDeleted r.
Proof.
  destruct r as [? ? ? ? ? ? ? ? ? ? ? ? ? d ? ?]. destruct d; reflexivity.
Qed.

Lemma evalSql_like (ps : ObjectLiteral) (r : row) (pattern : jsstring)
    (field : string) :
  In field validFields ->
  getParameter "keyword" ps = Some (PString pattern) ->
  evalSql castText sqlDATE "business" ps r
    ("business." ++ field ++ " LIKE :keyword")
  = fieldLike castText pattern r field.
Proof.
  intros Hin Hp. unfold validFields in Hin. simpl in Hin.
  repeat (destruct Hin as [<-|Hin];
          [unfold evalSql, fieldLike; cbn; rewrite Hp; reflexivity|]).
  contradiction.
Qed.

Lemma evalSql_onDay (ps : ObjectLiteral) (r : row) (d : jsdate) :
  getParameter "searchDate" ps = Some (PDate d) ->
  existsb (evalCondition castText sqlDATE "business" ps r) dateConditions
  = onDay sqlDATE d r.
Proof.
  intros Hp. unfold dateConditions, onDay, evalCondition, evalSql. cbn.
  rewrite Hp. destruct d as [t|]; cbn.
  - rewrite !isEq_Zcompare, orb_false_r. reflexivity.
  - reflexivity.
Qed.

Lemma disjuncts_any (f : condition -> bool) (acc : bool) (cs : list condition) :
  disjuncts acc
    (map (fun tc : where_type * condition => let (t, c) := tc in (t, f c))
       (map (pair WOr) cs))
  = acc || existsb f cs.
Proof.
  revert acc. induction cs as [|c cs IH]; intros acc; simpl.
  - rewrite orb_false_r. reflexivity.
  - rewrite IH. reflexivity.
Qed.

Lemma existsb_textConditions (ps : ObjectLiteral) (r : row) (pattern : jsstring) :
  getParameter "keyword" ps = Some (PString pattern) ->
  existsb (evalCondition castText sqlDATE "business" ps r) textConditions
  = existsb (fieldLike castText pattern r) validFields.
Proof.
  intros Hp. unfold textConditions.
  assert (H : forall fields, incl fields validFields ->
            existsb (evalCondition castText sqlDATE "business" ps r)
              (map (fun field => Sql ("business." ++ field ++ " LIKE :keyword"))
                 fields)
            = existsb (fieldLike castText pattern r) fields).
  { induction fields as [|f fields IH]; intros Hincl; [reflexivity|].
    cbn [map existsb evalCondition].
    rewrite (evalSql_like ps r pattern f); [|apply Hincl; left; reflexivity|exact Hp].
    rewrite IH; [reflexivity|].
    intros x Hx. apply Hincl. right. exact Hx. }
  apply H. apply incl_refl.
Qed.

Lemma evalCondition_any (ps : ObjectLiteral) (r : row) (cs : list condition) :
  cs <> [] ->
  evalCondition castText sqlDATE "business" ps r (Nested (map (pair WOr) cs))
  = existsb (evalCondition castText sqlDATE "business" ps r) cs.
Proof.
  destruct cs as [|c cs]; [congruence|]. intros _.
  cbn [evalCondition map evalClauses existsb].
  apply disjuncts_any.
Qed.

Lemma searchQuery_matches (keyword : jsstring) (offset limit : Z) (r : row) :
  matches castText sqlDATE (searchQuery legacyParse keyword offset limit) r
  = notDeleted r
    && (existsb (fieldLike castText (js "%" ++ keyword ++ js "%")%list r) validFields
        || datePattern keyword
           && onDay sqlDATE (Date_parse legacyParse keyword) r).
Proof.
  unfold matches.
  rewrite searchQuery_wheres, searchQuery_parameters.
  change (alias (searchQuery legacyParse keyword offset limit)) with "business".
  set (ps := (_ :: _) : ObjectLiteral).
  assert (Hk : getParameter "keyword" ps
               = Some (PString (js "%" ++ keyword ++ js "%")%list))
    by reflexivity.
  remember (Nested (map (pair WOr) _)) as group eqn:Hgroup.
  cbn [evalCondition map evalClauses disjuncts].
  rewrite evalSql_notDeleted. f_equal. subst group.
  rewrite evalCondition_any by (unfold textConditions; simpl; discriminate).
  rewrite existsb_app, (existsb_textConditions ps r _ Hk). f_equal.
  destruct (datePattern keyword) eqn:Hd; [|reflexivity].
  apply evalSql_onDay. subst ps. reflexivity.
Qed.

Lemma dateRangeQuery_matches (a b offset limit : Z) (r : row) :
  matches castText sqlDATE
    (dateRangeQuery (IsoString a) (IsoString b) offset limit) r
  = createdBetween a b r.
Proof.
  unfold matches, createdBetween.
  change (wheres (dateRangeQuery (IsoString a) (IsoString b) offset limit))
    with [(WSimple, Sql "business.isDeleted = false");
          (WAnd, Sql "business.createdAt >= :startDate");
          (WAnd, Sql "business.createdAt <= :endDate")].
  change (parameters (dateRangeQuery (IsoString a) (IsoString b) offset limit))
    with [("startDate", PIso (IsoString a)); ("endDate", PIso (IsoString b))].
  change (alias (dateRangeQuery (IsoString a) (IsoString b) offset limit))
    with "business".
  cbn [evalCondition map evalClauses disjuncts].
  rewrite evalSql_notDeleted.
  unfold evalSql. cbn.
  rewrite notLt_Zcompare, notGt_Zcompare. reflexivity.
Qed.

Lemma searchQuery_rowLeb (keyword : jsstring) (offset limit : Z) (r1 r2 : row) :
  rowLeb (searchQuery legacyParse keyword offset limit) r1 r2
  = negb (isGt (compareText (businessName r1) (businessName r2))).
Proof.
  unfold searchQuery, isDateSearch, rowLeb.
  destruct (datePattern keyword); cbn;
    destruct (compareText (businessName r1) (businessName r2)); reflexivity.
Qed.

Lemma dateRangeQuery_rowLeb (startDate endDate : isostring) (offset limit : Z)
    (r1 r2 : row) :
  rowLeb (dateRangeQuery startDate endDate offset limit) r1 r2
  = (createdAt r2 <=? createdAt r1)%Z.
Proof.
  unfold rowLeb. cbn.
  destruct (Z.compare_spec (createdAt r1) (createdAt r2)) as [H|H|H]; simpl;
    symmetry; first [apply Z.leb_le; lia | apply Z.leb_gt; lia].
Qed.

Lemma sort_ext {A : Type} (f g : A -> A -> bool) (l : list A) :
  (forall a b, f a b = g a b) -> sort f l = sort g l.
Proof.
  intros H. induction l as [|x l IH]; simpl; [reflexivity|].
  rewrite IH. generalize (sort g l). intros m.
  induction m as [|y m IHm]; simpl; [reflexivity|].
  rewrite H, IHm. reflexivity.
Qed.

Lemma matchSet_In (qb : QueryBuilder) (r : row) :
  In r (matchSet table castText sqlDATE qb)
  <-> In r table /\ matches castText sqlDATE qb r = true.
Proof.
  unfold matchSet. rewrite sort_In, filter_In. tauto.
Qed.

Lemma window_In (qb : QueryBuilder) (l : list row) (r : row) :
  In r (window qb l) -> In r l.
Proof.
  unfold window. cbv zeta. intros H.
  destruct (take qb); [apply In_firstn in H|];
    destruct (skip qb); try assumption; apply In_skipn in H; exact H.
Qed.

Lemma window_Sorted (R : row -> row -> Prop) (qb : QueryBuilder) (l : list row) :
  Sorted R l -> Sorted R (window qb l).
Proof.
  unfold window. cbv zeta. intros H.
  destruct (take qb); [apply Sorted_firstn|];
    destruct (skip qb); try assumption; apply Sorted_skipn; exact H.
Qed.

Lemma searchQuery_matchSet (keyword : jsstring) (offset limit : Z) :
  matchSet table castText sqlDATE (searchQuery legacyParse keyword offset limit)
  = sort byNameAsc
      (filter (keywordMatch castText sqlDATE legacyParse keyword) table).
Proof.
  unfold matchSet.
  rewrite (filter_ext _ _ (searchQuery_matches keyword offset limit)).
  apply sort_ext. apply searchQuery_rowLeb.
Qed.

Lemma dateRangeQuery_matchSet (a b offset limit : Z) :
  matchSet table castText sqlDATE
    (dateRangeQuery (IsoString a) (IsoString b) offset limit)
  = sort byCreatedDesc (filter (createdBetween a b) table).
Proof.
  unfold matchSet.
  rewrite (filter_ext _ _ (dateRangeQuery_matches a b offset limit)).
  apply sort_ext. apply dateRangeQuery_rowLeb.
Qed.

Lemma searchQuery_window (keyword : jsstring) (offset limit : Z) (l : list row) :
  window (searchQuery legacyParse keyword offset limit) l = pageOf offset limit l.
Proof.
  unfold searchQuery, isDateSearch. destruct (datePattern keyword); reflexivity.
Qed.

Lemma dateRangeQuery_window (startDate endDate : isostring) (offset limit : Z)
    (l : list row) :
  window (dateRangeQuery startDate endDate offset limit) l = pageOf offset limit l.
Proof.
  reflexivity.
Qed.

(** ** The two operations unfolded *)

Lemma search_run (keyword : jsstring) (page limit : option Z)
    (sent : list QueryBuilder) :
  let p := default 1 page in
  let l := default 10 limit in
  let qb := searchQuery legacyParse (trim keyword) ((p - 1) * l) l in
  search table castText sqlDATE legacyParse formatDate keyword page limit sent
  = (inr (mkSearchResult
            (formatBusinessInfoArrayDates formatDate
               (window qb (matchSet table castText sqlDATE qb)))
            (Z.of_nat (List.length (matchSet table castText sqlDATE qb))) p l),
     (sent ++ [qb])%list).
Proof.
  reflexivity.
Qed.

Lemma searchByDateRange_run (startDate endDate : jsstring) (page limit : option Z)
    (sent : list QueryBuilder) :
  let p := default 1 page in
  let l := default 10 limit in
  searchByDateRange table castText sqlDATE legacyParse formatDate
    startDate endDate page limit sent
  = if negb (datePattern startDate) || negb (datePattern endDate)
    then (inl (BadRequestException invalidDateMessage), sent)
    else match Date_parse legacyParse startDate, Date_parse legacyParse endDate with
         | Some a, Some b =>
             let qb := dateRangeQuery (IsoString a) (IsoString b) ((p - 1) * l) l in
             (inr (mkSearchResult
                     (formatBusinessInfoArrayDates formatDate
                        (window qb (matchSet table castText sqlDATE qb)))
                     (Z.of_nat (List.length (matchSet table castText sqlDATE qb)))
                     p l),
              (sent ++ [qb])%list)
         | _, _ => (inl (RangeError "Invalid time value"), sent)
         end.
Proof.
  unfold searchByDateRange, validateDateRange, bind, lift, throw, ret.
  destruct (negb (datePattern startDate) || negb (datePattern endDate));
    [reflexivity|].
  destruct (Date_parse legacyParse startDate), (Date_parse legacyParse endDate);
    reflexivity.
Qed.

Lemma formatBusinessInfoDates_formatted (r : row) :
  formatted formatDate r (formatBusinessInfoDates formatDate r).
Proof.
  unfold formatted. simpl. repeat split.
Qed.

Lemma formatBusinessInfoArrayDates_formatted (rows : list row) :
  Forall2 (formatted formatDate) rows
    (formatBusinessInfoArrayDates formatDate rows).
Proof.
  induction rows as [|r rows IH]; simpl; constructor.
  - apply formatBusinessInfoDates_formatted.
  - exact IH.
Qed.

Lemma pageOf_length {A : Type} (offset limit : Z) (l : list A) :
  (0 <= offset)%Z -> (0 <= limit)%Z ->
  Z.of_nat (List.length (pageOf offset limit l))
  = Z.min limit (Z.max 0 (Z.of_nat (List.length l) - offset)).
Proof.
  intros Ho Hl. unfold pageOf.
  rewrite length_firstn, length_skipn. lia.
Qed.

Lemma pageOf_nil {A : Type} (offset limit : Z) :
  pageOf offset limit (@nil A) = [].
Proof.
  unfold pageOf. rewrite skipn_nil, firstn_nil. reflexivity.
Qed.

(** ** Properties of [search] and [searchByDateRange] *)

(** C1: [search] sends one query whose filter is the not-deleted condition
    ANDed with one bracketed group of OR clauses: the fifteen
    [business.<field> LIKE :keyword] conditions, one per field of
    [validFields] and in that order, with [:keyword] bound to
    [%trimmedKeyword%]; and, exactly when the trimmed keyword matches the date
    pattern, the two conditions comparing [DATE(createdAt)] and
    [DATE(updatedAt)] with [DATE(:searchDate)], [:searchDate] being the parsed
    keyword.  A row passes the filter when it is not deleted and one of these
    clauses holds. *)
Theorem search_filter (keyword : jsstring) (page limit : option Z)
    (sent : list QueryBuilder) :
  let k := trim keyword in
  exists qb,
    snd (search table castText sqlDATE legacyParse formatDate
           keyword page limit sent) = (sent ++ [qb])%list
    /\ wheres qb =
         [(WSimple, Sql "business.isDeleted = false");
          (WAnd, Nested (map (pair WOr)
                           (textConditions
                              ++ if datePattern k then dateConditions else [])%list))]
    /\ List.length validFields = 15%nat
    /\ textConditions =
         map (fun field => Sql ("business." ++ field ++ " LIKE :keyword"))
           validFields
    /\ getParameter "keyword" (parameters qb)
       = Some (PString (js "%" ++ k ++ js "%")%list)
    /\ getParameter "searchDate" (parameters qb)
       = (if datePattern k then Some (PDate (Date_parse legacyParse k)) else None)
    /\ forall r,
         matches castText sqlDATE qb r
         = notDeleted r
           && (existsb (fieldLike castText (js "%" ++ k ++ js "%")%list r)
                 validFields
               || datePattern k && onDay sqlDATE (Date_parse legacyParse k) r).
Proof.
  intros k. rewrite search_run. cbv zeta. fold k.
  eexists. split; [reflexivity|].
  split; [apply searchQuery_wheres|].
  split; [reflexivity|].
  split; [reflexivity|].
  rewrite searchQuery_parameters.
  split; [reflexivity|].
  split; [destruct (datePattern k); reflexivity|].
  intros r. apply searchQuery_matches.
Qed.

(** C2: [searchByDateRange] fails with the bad-request error carrying the
    message of the source exactly when one of the two strings does not match
    the date pattern, and then no query has been sent; no other bad-request
    error exists; a month 13 passes the validation. *)
Theorem searchByDateRange_validation (startDate endDate : jsstring)
    (page limit : option Z) (sent : list QueryBuilder) :
  let run := searchByDateRange table castText sqlDATE legacyParse formatDate
               startDate endDate page limit sent in
  (fst run = inl (BadRequestException
                    "날짜 형식이 올바르지 않습니다. (YYYY-MM-DD 또는 YYYY/MM/DD)")
   <-> datePattern startDate = false \/ datePattern endDate = false)
  /\ (forall message, fst run = inl (BadRequestException message) ->
        message = "날짜 형식이 올바르지 않습니다. (YYYY-MM-DD 또는 YYYY/MM/DD)"
        /\ snd run = sent)
  /\ validateDateRange (js "2024-13-01") (js "2024-01-31") sent = (inr tt, sent).
Proof.
  intros run. subst run. rewrite searchByDateRange_run. cbv zeta.
  destruct (datePattern startDate) eqn:Hs, (datePattern endDate) eqn:He; simpl;
    try (split; [split; [intros _; auto | reflexivity]
                | split; [intros m H; inversion H; split; reflexivity
                         | reflexivity]]).
  destruct (Date_parse legacyParse startDate), (Date_parse legacyParse endDate);
    simpl; (split; [split; [discriminate | intros [H|H]; discriminate]
                   | split; [discriminate | reflexivity]]).
Qed.

(** C3: whatever the keyword, the dates, the page and the limit, a record
    returned by either operation is not a deleted one. *)
Theorem deleted_never_returned (keyword startDate endDate : jsstring)
    (page limit : option Z) (sent : list QueryBuilder) (res : SearchResult) :
  fst (search table castText sqlDATE legacyParse formatDate
         keyword page limit sent) = inr res
  \/ fst (searchByDateRange table castText sqlDATE legacyParse formatDate
            startDate endDate page limit sent) = inr res ->
  Forall (fun b => isDeleted b = false) (data res).
Proof.
  assert (Hgen : forall qb,
             (forall r, matches castText sqlDATE qb r = true -> notDeleted r = true) ->
             Forall (fun b => isDeleted b = false)
               (formatBusinessInfoArrayDates formatDate
                  (window qb (matchSet table castText sqlDATE qb)))).
  { intros qb Hqb. apply Forall_forall. intros b Hb.
    apply in_map_iff in Hb. destruct Hb as (r & <- & Hr).
    apply window_In, matchSet_In in Hr. destruct Hr as [_ Hr].
    apply Hqb in Hr. unfold notDeleted in Hr. simpl.
    destruct (isDeleted r); [discriminate|reflexivity]. }
  intros [H|H].
  - rewrite search_run in H. cbv zeta in H. simpl in H.
    injection H as <-. simpl. apply Hgen.
    intros r. rewrite searchQuery_matches. intros Hr.
    apply andb_true_iff in Hr. tauto.
  - rewrite searchByDateRange_run in H. cbv zeta in H.
    destruct (negb (datePattern startDate) || negb (datePattern endDate));
      [discriminate|].
    destruct (Date_parse legacyParse startDate) as [a|]; [|discriminate].
    destruct (Date_parse legacyParse endDate) as [b|]; [|discriminate].
    simpl in H. injection H as <-. simpl. apply Hgen.
    intros r. rewrite dateRangeQuery_matches. unfold createdBetween. intros Hr.
    apply andb_true_iff in Hr. destruct Hr as [Hr _].
    apply andb_true_iff in Hr. tauto.
Qed.

(** C4: for a page and a limit of at least 1, both operations return the
    [limit] rows that follow the first [(page - 1) * limit] rows of the full
    ordered match set (fewer when the set ends before), hence at most [limit]
    of them; [total] counts the whole match set; [page] and [limit] come back
    as given; leaving them out is giving 1 and 10.  [searchByDateRange] does
    so for dates that pass the validation and that the engine reads. *)
Theorem pagination (keyword startDate endDate : jsstring) (page limit : Z)
    (sent : list QueryBuilder) :
  (1 <= page)%Z -> (1 <= limit)%Z ->
  let offset := ((page - 1) * limit)%Z in
  let found := sort byNameAsc
                 (filter (keywordMatch castText sqlDATE legacyParse (trim keyword))
                    table) in
  let res1 := mkSearchResult
                (formatBusinessInfoArrayDates formatDate (pageOf offset limit found))
                (Z.of_nat (List.length found)) page limit in
  (fst (search table castText sqlDATE legacyParse formatDate
          keyword (Some page) (Some limit) sent) = inr res1
   /\ (Z.of_nat (List.length (data res1)) <= limit)%Z
   /\ Z.of_nat (List.length (data res1))
      = Z.min limit (Z.max 0 (total res1 - offset)))
  /\ (forall a b,
        datePattern startDate = true -> datePattern endDate = true ->
        Date_parse legacyParse startDate = Some a ->
        Date_parse legacyParse endDate = Some b ->
        let ranged := sort byCreatedDesc (filter (createdBetween a b) table) in
        let res2 := mkSearchResult
                      (formatBusinessInfoArrayDates formatDate
                         (pageOf offset limit ranged))
                      (Z.of_nat (List.length ranged)) page limit in
        fst (searchByDateRange table castText sqlDATE legacyParse formatDate
               startDate endDate (Some page) (Some limit) sent) = inr res2
        /\ (Z.of_nat (List.length (data res2)) <= limit)%Z
        /\ Z.of_nat (List.length (data res2))
           = Z.min limit (Z.max 0 (total res2 - offset)))
  /\ search table castText sqlDATE legacyParse formatDate keyword None None sent
     = search table castText sqlDATE legacyParse formatDate
         keyword (Some 1%Z) (Some 10%Z) sent
  /\ searchByDateRange table castText sqlDATE legacyParse formatDate
       startDate endDate None None sent
     = searchByDateRange table castText sqlDATE legacyParse formatDate
         startDate endDate (Some 1%Z) (Some 10%Z) sent.
Proof.
  intros Hp Hl offset found res1.
  assert (Ho : (0 <= offset)%Z) by (subst offset; nia).
  assert (Hlen : forall rows : list row,
             Z.of_nat (List.length
                         (formatBusinessInfoArrayDates formatDate
                            (pageOf offset limit rows)))
             = Z.min limit (Z.max 0 (Z.of_nat (List.length rows) - offset))).
  { intros rows. unfold formatBusinessInfoArrayDates.
    rewrite length_map. apply pageOf_length; lia. }
  split; [|split; [|split; reflexivity]].
  - pose proof (Hlen found) as L1.
    split; [|split; [subst res1; cbn [data]; lia|exact L1]].
    rewrite search_run. cbv zeta. simpl default. fold offset.
    rewrite searchQuery_window, searchQuery_matchSet. reflexivity.
  - intros a b Hs He Ha Hb ranged res2.
    pose proof (Hlen ranged) as L2.
    split; [|split; [subst res2; cbn [data]; lia|exact L2]].
    rewrite searchByDateRange_run. cbv zeta. rewrite Hs, He, Ha, Hb.
    simpl default. fold offset. simpl.
    rewrite dateRangeQuery_window, dateRangeQuery_matchSet. reflexivity.
Qed.

(** C5: the records [search] returns are in ascending order of
    [businessName]; the records [searchByDateRange] returns are the formatted
    forms of rows in descending order of [createdAt]. *)
Theorem results_ordered (keyword startDate endDate : jsstring)
    (page limit : option Z) (sent : list QueryBuilder) :
  (exists res,
      fst (search table castText sqlDATE legacyParse formatDate
             keyword page limit sent) = inr res
      /\ Sorted (fun b1 b2 =>
                   compareText (businessName b1) (businessName b2) <> Gt)
           (data res))
  /\ (forall res,
        fst (searchByDateRange table castText sqlDATE legacyParse formatDate
               startDate endDate page limit sent) = inr res ->
        exists rows,
          data res = formatBusinessInfoArrayDates formatDate rows
          /\ Sorted (fun r1 r2 => (createdAt r2 <= createdAt r1)%Z) rows).
Proof.
  split.
  - rewrite search_run. cbv zeta. eexists. split; [reflexivity|].
    cbn [data]. rewrite searchQuery_window, searchQuery_matchSet.
    set (found := sort byNameAsc _).
    assert (Hsorted : Sorted (fun r1 r2 => byNameAsc r1 r2 = true)
                        (pageOf ((default 1 page - 1) * default 10 limit)
                           (default 10 limit) found)).
    { unfold pageOf. apply Sorted_firstn, Sorted_skipn. subst found.
      apply sort_Sorted. intros x y. unfold byNameAsc.
      rewrite (compareText_antisym (businessName x) (businessName y)).
      destruct (compareText (businessName x) (businessName y));
        simpl; congruence. }
    induction Hsorted as [|r rows Hrows IH Hhd]; simpl; constructor.
    + exact IH.
    + destruct Hhd as [|r' rows' Hr]; simpl; constructor.
      unfold byNameAsc in Hr. simpl.
      destruct (compareText (businessName r) (businessName r'));
        simpl in Hr; congruence.
  - intros res H. rewrite searchByDateRange_run in H. cbv zeta in H.
    destruct (negb (datePattern startDate) || negb (datePattern endDate));
      [discriminate|].
    destruct (Date_parse legacyParse startDate) as [a|]; [|discriminate].
    destruct (Date_parse legacyParse endDate) as [b|]; [|discriminate].
    simpl in H. injection H as <-. eexists. split; [reflexivity|].
    apply window_Sorted. rewrite dateRangeQuery_matchSet.
    assert (Hs : Sorted (fun r1 r2 => byCreatedDesc r1 r2 = true)
                   (sort byCreatedDesc (filter (createdBetween a b) table))).
    { apply sort_Sorted. intros x y. unfold byCreatedDesc.
      rewrite Z.leb_gt, Z.leb_le. lia. }
    induction Hs as [|r rows Hrows IH Hhd]; constructor.
    + exact IH.
    + destruct Hhd as [|r' rows' Hr]; constructor.
      unfold byCreatedDesc in Hr. apply Z.leb_le in Hr. exact Hr.
Qed.


(** C7: [search] raises nothing of its own, whatever the keyword and the
    integers given as page and limit: the query is always sent, and the
    outcome is the answer of the store, the rows formatted or the store's
    exception as it is.  For the empty keyword the pattern is [%%], every row
    that is not deleted matches, and for a page and a limit of at least 1 the
    result is the requested page of all of them, with their number as
    [total]. *)
Theorem search_accepts_any_keyword (keyword : jsstring) (page limit : option Z)
    (sent : list QueryBuilder) :
  let p := default 1 page in
  let l := default 10 limit in
  (forall answer : QueryBuilder -> exn + (list row * Z),
      searchVia legacyParse formatDate answer keyword page limit sent
      = (match answer (searchQuery legacyParse (trim keyword) ((p - 1) * l) l) with
         | inr found =>
             inr (mkSearchResult
                    (formatBusinessInfoArrayDates formatDate (fst found))
                    (snd found) p l)
         | inl e => inl e
         end,
         (sent ++ [searchQuery legacyParse (trim keyword) ((p - 1) * l) l])%list))
  /\ search table castText sqlDATE legacyParse formatDate keyword page limit sent
     = searchVia legacyParse formatDate
         (fun qb => inr (runQuery table castText sqlDATE qb))
         keyword page limit sent
  /\ getParameter "keyword" (parameters (searchQuery legacyParse (trim []) 0 l))
     = Some (PString (js "%%"))
  /\ (forall r, keywordMatch castText sqlDATE legacyParse (trim []) r
                = notDeleted r)
  /\ ((1 <= p)%Z -> (1 <= l)%Z ->
      fst (search table castText sqlDATE legacyParse formatDate
             [] page limit sent)
      = inr (mkSearchResult
               (formatBusinessInfoArrayDates formatDate
                  (pageOf ((p - 1) * l) l
                     (sort byNameAsc (filter notDeleted table))))
               (Z.of_nat (List.length (filter notDeleted table))) p l)).
Proof.
  intros p l.
  assert (Hall : forall r, keywordMatch castText sqlDATE legacyParse (trim []) r
                           = notDeleted r).
  { intros r. unfold keywordMatch. change (trim []) with (@nil N).
    change (js "%" ++ [] ++ js "%")%list with [37%N; 37%N].
    replace (existsb _ validFields) with true.
    - simpl. apply andb_true_r.
    - symmetry. unfold validFields. cbn [existsb].
      unfold fieldLike at 1. cbn [column String.eqb Ascii.eqb Bool.eqb asText].
      rewrite like_percent_percent. reflexivity. }
  split.
  { intros answer. unfold searchVia, getManyAndCountVia, bind, ret.
    fold p l. destruct (answer _) as [e|found]; reflexivity. }
  split; [reflexivity|].
  split; [reflexivity|].
  split; [exact Hall|].
  intros _ _. rewrite search_run. cbv zeta. fold p l. cbn [fst].
  rewrite searchQuery_window, searchQuery_matchSet.
  rewrite (filter_ext _ _ Hall), sort_length. reflexivity.
Qed.

(** C8: the records either operation returns are, one for one and in the same
    order, the rows the store gave back for the query that was sent, each with
    [createdAt] and [updatedAt] in display form and every other field as it
    was. *)
Theorem dates_formatted_uniformly (keyword startDate endDate : jsstring)
    (page limit : option Z) (sent log : list QueryBuilder) (res : SearchResult) :
  search table castText sqlDATE legacyParse formatDate keyword page limit sent
  = (inr res, log)
  \/ searchByDateRange table castText sqlDATE legacyParse formatDate
       startDate endDate page limit sent
     = (inr res, log) ->
  exists qb,
    log = (sent ++ [qb])%list
    /\ Forall2 (formatted formatDate)
         (fst (runQuery table castText sqlDATE qb)) (data res).
Proof.
  intros [H|H].
  - rewrite search_run in H. cbv zeta in H. injection H as <- <-.
    eexists. split; [reflexivity|].
    apply formatBusinessInfoArrayDates_formatted.
  - rewrite searchByDateRange_run in H. cbv zeta in H.
    destruct (negb (datePattern startDate) || negb (datePattern endDate));
      [discriminate|].
    destruct (Date_parse legacyParse startDate) as [a|]; [|discriminate].
    destruct (Date_parse legacyParse endDate) as [b|]; [|discriminate].
    injection H as <- <-.
    eexists. split; [reflexivity|].
    apply formatBusinessInfoArrayDates_formatted.
Qed.

(** C9: two strings that match the date pattern and that the engine reads as
    instants, the first later than the second, pass the validation; the query
    is sent, nothing is raised, and the result has no record and a total
    of 0. *)
Theorem reversed_range_is_empty (startDate endDate : jsstring) (a b : Z)
    (page limit : option Z) (sent : list QueryBuilder) :
  datePattern startDate = true -> datePattern endDate = true ->
  Date_parse legacyParse startDate = Some a ->
  Date_parse legacyParse endDate = Some b ->
  (b < a)%Z ->
  validateDateRange startDate endDate sent = (inr tt, sent)
  /\ searchByDateRange table castText sqlDATE legacyParse formatDate
       startDate endDate page limit sent
     = (inr (mkSearchResult [] 0 (default 1 page) (default 10 limit)),
        (sent ++ [dateRangeQuery (IsoString a) (IsoString b)
                    ((default 1 page - 1) * default 10 limit)
                    (default 10 limit)])%list).
Proof.
  intros Hs He Ha Hb Hlt. split.
  - unfold validateDateRange. rewrite Hs, He. reflexivity.
  - rewrite searchByDateRange_run. cbv zeta. rewrite Hs, He, Ha, Hb. simpl.
    rewrite dateRangeQuery_window, dateRangeQuery_matchSet.
    replace (filter (createdBetween a b) table) with (@nil row).
    + simpl. rewrite pageOf_nil. reflexivity.
    + symmetry. induction table as [|r rows IH]; [reflexivity|]. simpl.
      rewrite <- IH. unfold createdBetween.
      destruct (Z.leb_spec a (createdAt r)), (Z.leb_spec (createdAt r) b);
        try lia; rewrite ?andb_false_r; reflexivity.
Qed.

(** C10: a date string that starts or ends with a white space character fails
    the validation of [searchByDateRange], as start date and as end date,
    whatever its trimmed form; [search] on the same string is [search] on the
    string without that character. *)
Theorem date_range_does_not_trim (c : N) (rest s other : jsstring)
    (page limit : option Z) (sent : list QueryBuilder) :
  isWhiteSpace c = true ->
  s = c :: rest \/ s = (rest ++ [c])%list ->
  searchByDateRange table castText sqlDATE legacyParse formatDate
    s other page limit sent
  = (inl (BadRequestException
            "날짜 형식이 올바르지 않습니다. (YYYY-MM-DD 또는 YYYY/MM/DD)"),
     sent)
  /\ searchByDateRange table castText sqlDATE legacyParse formatDate
       other s page limit sent
     = (inl (BadRequestException
               "날짜 형식이 올바르지 않습니다. (YYYY-MM-DD 또는 YYYY/MM/DD)"),
        sent)
  /\ search table castText sqlDATE legacyParse formatDate s page limit sent
     = search table castText sqlDATE legacyParse formatDate rest page limit sent.
Proof.
  intros Hc Hs.
  assert (Hpat : datePattern s = false).
  { destruct Hs as [->| ->].
    - apply datePattern_leading_white. exact Hc.
    - apply datePattern_trailing_white. exact Hc. }
  assert (Htrim : trim s = trim rest).
  { destruct Hs as [->| ->].
    - apply trim_leading_white. exact Hc.
    - apply trim_trailing_white. exact Hc. }
  split; [|split].
  - rewrite searchByDateRange_run. cbv zeta. rewrite Hpat. reflexivity.
  - rewrite searchByDateRange_run. cbv zeta. rewrite Hpat, orb_true_r.
    reflexivity.
  - rewrite !search_run. cbv zeta. rewrite Htrim. reflexivity.
Qed.

End QueryFacts.

(** ** The statements on explicit inputs *)

Example datePattern_examples :
  datePattern (js "2024-01-15") = true
  /\ datePattern (js "2024/1/5") = true
  /\ datePattern (js "2024-01/31") = true
  /\ datePattern (js "2024-13-01") = true
  /\ datePattern (js "2024-02-31") = true
  /\ datePattern (js "24-01-15") = false
  /\ datePattern (js "2024-01-155") = false
  /\ datePattern (js "2024.01.15") = false
  /\ datePattern (js "2024-01-15" ++ [10%N])%list = false
  /\ datePattern (js "") = false.
Proof.
  repeat split; reflexivity.
Qed.

Example trim_examples :
  trim (js "  ab c  ") = js "ab c"
  /\ trim ([9; 10; 160; 12288; 65279] ++ js "x" ++ [8232; 13; 32])%N%list = js "x"
  /\ trim (js "   ") = []
  /\ trim (js "x") = js "x".
Proof.
  repeat split; reflexivity.
Qed.

Example Date_parse_examples (legacyParse : jsstring -> jsdate) :
  Date_parse legacyParse (js "1970-01-01") = Some 0%Z
  /\ Date_parse legacyParse (js "2024-01-01") = Some 1704067200000%Z
  /\ Date_parse legacyParse (js "2024-01-31") = Some 1706659200000%Z
  /\ Date_parse legacyParse (js "2024-13-01") = None
  /\ Date_parse legacyParse (js "2024-01-00") = None
  /\ Date_parse legacyParse (js "2024/01/31") = legacyParse (js "2024/01/31")
  /\ Date_parse demoLegacyParse (js "2024/01/31") = Some 1706659200000%Z.
Proof.
  repeat split; reflexivity.
Qed.

Example like_examples :
  like (js "%et%") (js "beta") = true
  /\ like (js "%ET%") (js "beta") = false
  /\ like (js "%%") (js "") = true
  /\ like (js "%a_p%") (js "alpha") = true
  /\ like (js "%a_h%") (js "alpha") = false
  /\ like (js "%l_h%") (js "alpha") = true.
Proof.
  repeat split; reflexivity.
Qed.

Example search_on_a_date :
  option_map (map (fun b => businessName b))
    (match fst (search demoTable demoCastText demoDATE demoLegacyParse
                  demoFormatDate (js " 2024-01-15 ") None None []) with
     | inr res => Some (data res)
     | inl _ => None
     end)
  = Some [js "alpha"].
Proof.
  reflexivity.
Qed.

(** A dot is not a separator of the pattern. *)
Lemma searchByDateRange_validation_witness :
  fst (searchByDateRange demoTable demoCastText demoDATE demoLegacyParse
         demoFormatDate (js "2024.01.01") (js "2024-01-31") None None [])
  = inl (BadRequestException
           "날짜 형식이 올바르지 않습니다. (YYYY-MM-DD 또는 YYYY/MM/DD)").
Proof.
  apply (proj1 (searchByDateRange_validation demoTable demoCastText demoDATE
                  demoLegacyParse demoFormatDate (js "2024.01.01")
                  (js "2024-01-31") None None [])).
  left. reflexivity.
Defined.

(** The deleted row [gamma] has an [a] and is not returned. *)
Lemma deleted_never_returned_witness :
  exists res,
    fst (search demoTable demoCastText demoDATE demoLegacyParse demoFormatDate
           (js "a") None None []) = inr res
    /\ List.length (data res) = 3%nat
    /\ Forall (fun b => isDeleted b = false) (data res).
Proof.
  eexists. split; [reflexivity|]. split; [reflexivity|].
  apply (deleted_never_returned demoTable demoCastText demoDATE demoLegacyParse
           demoFormatDate (js "a") (js "2024-01-01") (js "2024-01-31")
           None None []).
  left. reflexivity.
Defined.

(** Second page of one row among [Alpha], [alpha], [beta], by keyword and
    by dates. *)
Lemma pagination_witness :
  (exists res,
      fst (search demoTable demoCastText demoDATE demoLegacyParse demoFormatDate
             (js " a ") (Some 2%Z) (Some 1%Z) []) = inr res
      /\ map (fun b => businessName b) (data res) = [js "alpha"]
      /\ total res = 3%Z /\ page res = 2%Z /\ limit res = 1%Z)
  /\ (exists res,
        fst (searchByDateRange demoTable demoCastText demoDATE demoLegacyParse
               demoFormatDate (js "2024-01-01") (js "2024/01/31")
               (Some 2%Z) (Some 1%Z) []) = inr res
        /\ map (fun b => businessName b) (data res) = [js "alpha"]
        /\ total res = 3%Z /\ page res = 2%Z /\ limit res = 1%Z).
Proof.
  pose proof (pagination demoTable demoCastText demoDATE demoLegacyParse
                demoFormatDate (js " a ") (js "2024-01-01") (js "2024/01/31")
                2 1 [] ltac:(lia) ltac:(lia)) as H.
  cbv zeta in H. destruct H as ((H1 & _) & H2 & _).
  specialize (H2 _ _ eq_refl eq_refl eq_refl eq_refl).
  cbv zeta in H2. destruct H2 as (H2 & _).
  split; eexists; (split; [eassumption | repeat split; reflexivity]).
Defined.

(** January 2024, latest first. *)
Lemma results_ordered_witness :
  exists res rows,
    fst (searchByDateRange demoTable demoCastText demoDATE demoLegacyParse
           demoFormatDate (js "2024-01-01") (js "2024/01/31") None None [])
    = inr res
    /\ List.length (data res) = 3%nat
    /\ data res = formatBusinessInfoArrayDates demoFormatDate rows
    /\ Sorted (fun r1 r2 => (createdAt r2 <= createdAt r1)%Z) rows.
Proof.
  eexists.
  assert (H : fst (searchByDateRange demoTable demoCastText demoDATE
                     demoLegacyParse demoFormatDate (js "2024-01-01")
                     (js "2024/01/31") None None []) = inr _)
    by reflexivity.
  destruct (proj2 (results_ordered demoTable demoCastText demoDATE
                     demoLegacyParse demoFormatDate (js "a") (js "2024-01-01")
                     (js "2024/01/31") None None []) _ H)
    as (rows & Hdata & Hsorted).
  exists rows. split; [exact H|]. split; [reflexivity|].
  split; [exact Hdata|exact Hsorted].
Defined.

(** The empty keyword, page and limit left out: the three rows that are not
    deleted, by name. *)
Lemma search_accepts_any_keyword_witness :
  exists res,
    fst (search demoTable demoCastText demoDATE demoLegacyParse demoFormatDate
           [] None None []) = inr res
    /\ map (fun b => businessName b) (data res)
       = [js "Alpha"; js "alpha"; js "beta"]
    /\ total res = 3%Z.
Proof.
  eexists. split.
  - apply (search_accepts_any_keyword demoTable demoCastText demoDATE
             demoLegacyParse demoFormatDate [] None None []);
      simpl; lia.
  - split; reflexivity.
Defined.



(** The one row named [alpha], its dates in display form. *)
Lemma dates_formatted_uniformly_witness :
  exists res qb,
    search demoTable demoCastText demoDATE demoLegacyParse demoFormatDate
      (js "alpha") None None []
    = (inr res, [qb])
    /\ map (fun b => createdAt b) (data res) = [js "day 19737"]
    /\ Forall2 (formatted demoFormatDate)
         (fst (runQuery demoTable demoCastText demoDATE qb)) (data res).
Proof.
  eexists.
  assert (H : search demoTable demoCastText demoDATE demoLegacyParse
                demoFormatDate (js "alpha") None None []
              = (inr _, _)) by reflexivity.
  destruct (dates_formatted_uniformly demoTable demoCastText demoDATE
              demoLegacyParse demoFormatDate (js "alpha") (js "2024-01-01")
              (js "2024-01-31") None None [] _ _ (or_introl H))
    as (qb & Hlog & Hall).
  exists qb. split; [rewrite H, Hlog; reflexivity|].
  split; [reflexivity|exact Hall].
Defined.

(** February before January. *)
Lemma reversed_range_is_empty_witness :
  searchByDateRange demoTable demoCastText demoDATE demoLegacyParse
    demoFormatDate (js "2024-02-01") (js "2024-01-01") None None []
  = (inr (mkSearchResult [] 0 1 10),
     [dateRangeQuery (IsoString 1706745600000) (IsoString 1704067200000) 0 10]).
Proof.
  apply (proj2 (reversed_range_is_empty demoTable demoCastText demoDATE
                  demoLegacyParse demoFormatDate (js "2024-02-01")
                  (js "2024-01-01") 1706745600000 1704067200000 None None []
                  eq_refl eq_refl eq_refl eq_refl eq_refl)).
Defined.

(** A leading space: the trimmed form matches, the call fails. *)
Lemma date_range_does_not_trim_witness :
  datePattern (trim (js " 2024-01-01")) = true
  /\ searchByDateRange demoTable demoCastText demoDATE demoLegacyParse
       demoFormatDate (js " 2024-01-01") (js "2024-01-31") None None []
     = (inl (BadRequestException
               "날짜 형식이 올바르지 않습니다. (YYYY-MM-DD 또는 YYYY/MM/DD)"),
        []).
Proof.
  split; [reflexivity|].
  apply (proj1 (date_range_does_not_trim demoTable demoCastText demoDATE
                  demoLegacyParse demoFormatDate 32%N (js "2024-01-01")
                  (js " 2024-01-01") (js "2024-01-31") None None []
                  eq_refl (or_introl eq_refl))).
Defined.

(** * Further properties *)

(** ** The matchers against their description *)

Lemma exactly_spec (p : charclass) (n : nat) (k : matcher) (s : jsstring) :
  exactly p n k s = true
  <-> exists u v, s = (u ++ v)%list /\ List.length u = n
                  /\ forallb p u = true /\ k v = true.
Proof.
  revert s. induction n as [|n IH]; intros s; simpl.
  - split.
    + intros H. exists [], s. auto.
    + intros (u & v & -> & Hu & _ & Hk).
      destruct u; [exact Hk|discriminate].
  - destruct s as [|c s].
    + split; [discriminate|].
      intros (u & v & Hs & Hu & _). destruct u; discriminate.
    + rewrite andb_true_iff, IH. split.
      * intros (Hc & u & v & -> & Hu & Hp & Hk).
        exists (c :: u), v. simpl. rewrite Hc, Hp, Hu. auto.
      * intros (u & v & Hs & Hu & Hp & Hk).
        destruct u as [|c' u]; [discriminate|].
        simpl in Hs, Hu, Hp. injection Hs as <- ->.
        apply andb_true_iff in Hp. destruct Hp as [Hc Hp].
        split; [exact Hc|]. exists u, v. auto.
Qed.

Lemma atmost_spec (p : charclass) (n : nat) (k : matcher) (s : jsstring) :
  atmost p n k s = true
  <-> exists u v, s = (u ++ v)%list /\ (List.length u <= n)%nat
                  /\ forallb p u = true /\ k v = true.
Proof.
  revert s. induction n as [|n IH]; intros s; simpl.
  - split.
    + intros H. exists [], s. auto.
    + intros (u & v & -> & Hu & _ & Hk).
      destruct u; [exact Hk|simpl in Hu; lia].
  - rewrite orb_true_iff. split.
    + intros [H|H].
      * destruct s as [|c s]; [discriminate|].
        apply andb_true_iff in H. destruct H as [Hc H].
        apply IH in H. destruct H as (u & v & -> & Hu & Hp & Hk).
        exists (c :: u), v. simpl. rewrite Hc, Hp. repeat split; auto. lia.
      * exists [], s. simpl. repeat split; auto. lia.
    + intros (u & v & -> & Hu & Hp & Hk).
      destruct u as [|c u]; [right; exact Hk|left].
      simpl in *. apply andb_true_iff in Hp. destruct Hp as [Hc Hp].
      rewrite Hc. simpl. apply IH. exists u, v. repeat split; auto. lia.
Qed.

Lemma quant_spec (p : charclass) (lo hi : nat) (k : matcher) (s : jsstring) :
  (lo <= hi)%nat ->
  quant p lo hi k s = true
  <-> exists u v, s = (u ++ v)%list /\ (lo <= List.length u <= hi)%nat
                  /\ forallb p u = true /\ k v = true.
Proof.
  intros Hle. unfold quant. rewrite exactly_spec. split.
  - intros (u1 & w & -> & Hu1 & Hp1 & H). apply atmost_spec in H.
    destruct H as (u2 & v & -> & Hu2 & Hp2 & Hk).
    exists (u1 ++ u2)%list, v. rewrite <- app_assoc, length_app, forallb_app.
    rewrite Hp1, Hp2. repeat split; auto; lia.
  - intros (u & v & -> & Hu & Hp & Hk).
    exists (firstn lo u), (skipn lo u ++ v)%list.
    rewrite app_assoc, firstn_skipn, length_firstn.
    rewrite <- (firstn_skipn lo u), forallb_app in Hp.
    apply andb_true_iff in Hp. destruct Hp as [Hp1 Hp2].
    repeat split; auto; [lia|].
    apply atmost_spec. exists (skipn lo u), v. rewrite length_skipn.
    repeat split; auto. lia.
Qed.

Lemma at_end_spec (s : jsstring) : at_end s = true <-> s = [].
Proof.
  destruct s; simpl; split; congruence.
Qed.

Lemma length_one {A : Type} (u : list A) :
  (1 <= List.length u <= 1)%nat -> exists x, u = [x].
Proof.
  destruct u as [|x [|y u]]; simpl; intros H; try lia. exists x. reflexivity.
Qed.

(** X1: the date pattern accepts a string exactly when it is four digits, a
    separator, one or two digits, a separator, and one or two digits, each
    separator a dash or a slash on its own; such a string has 8 to 10 code
    units. *)
Theorem datePattern_shape (s : jsstring) :
  (datePattern s = true <-> dateShaped s)
  /\ (datePattern s = true -> (8 <= List.length s <= 10)%nat).
Proof.
  assert (Hiff : datePattern s = true <-> dateShaped s).
  { unfold datePattern, dateShaped.
    rewrite quant_spec by lia. split.
    - intros (y & s1 & -> & Hy & Py & H).
      apply quant_spec in H; [|lia].
      destruct H as (p & s2 & -> & Hp & Pp & H).
      apply quant_spec in H; [|lia].
      destruct H as (m & s3 & -> & Hm & Pm & H).
      apply quant_spec in H; [|lia].
      destruct H as (q & s4 & -> & Hq & Pq & H).
      apply quant_spec in H; [|lia].
      destruct H as (d & s5 & -> & Hd & Pd & H).
      apply at_end_spec in H. subst s5.
      destruct (length_one p Hp) as (p' & ->).
      destruct (length_one q Hq) as (q' & ->).
      simpl in Pp, Pq. rewrite andb_true_r in Pp, Pq.
      exists y, p', m, q', d. rewrite app_nil_r. simpl.
      repeat split; auto; lia.
    - intros (y & p & m & q & d & -> & Hy & Hm & Hd & Py & Pm & Pd & Pp & Pq).
      exists y, (p :: m ++ q :: d)%list. repeat split; auto; try lia.
      apply quant_spec; [lia|].
      exists [p], (m ++ q :: d)%list. simpl. rewrite Pp.
      repeat split; auto.
      apply quant_spec; [lia|].
      exists m, (q :: d). repeat split; auto; try lia.
      apply quant_spec; [lia|].
      exists [q], d. simpl. rewrite Pq. repeat split; auto.
      apply quant_spec; [lia|].
      exists d, []. rewrite app_nil_r. repeat split; auto; lia. }
  split; [exact Hiff|].
  intros H. apply Hiff in H.
  destruct H as (y & p & m & q & d & -> & Hy & Hm & Hd & _).
  rewrite length_app. simpl. rewrite length_app. simpl. lia.
Qed.

(** ** White space around a keyword *)

Lemma trimStart_white_prefix (pre s : jsstring) :
  forallb isWhiteSpace pre = true -> trimStart (pre ++ s)%list = trimStart s.
Proof.
  induction pre as [|c pre IH]; simpl; [reflexivity|].
  intros H. apply andb_true_iff in H. destruct H as [Hc H].
  rewrite Hc. apply IH. exact H.
Qed.

Lemma trim_white_suffix (post s : jsstring) :
  forallb isWhiteSpace post = true -> trim (s ++ post)%list = trim s.
Proof.
  revert s. induction post as [|c post IH]; intros s; simpl.
  - rewrite app_nil_r. reflexivity.
  - intros H. apply andb_true_iff in H. destruct H as [Hc H].
    change (c :: post) with ([c] ++ post)%list. rewrite app_assoc.
    rewrite (IH _ H). apply trim_trailing_white. exact Hc.
Qed.

Lemma trim_padded (pre post s : jsstring) :
  forallb isWhiteSpace pre = true -> forallb isWhiteSpace post = true ->
  trim (pre ++ s ++ post)%list = trim s.
Proof.
  intros Hpre Hpost. rewrite app_assoc, (trim_white_suffix post _ Hpost).
  unfold trim. rewrite (trimStart_white_prefix pre s Hpre). reflexivity.
Qed.

Lemma like_percents (n : nat) (s : jsstring) :
  like (37%N :: repeat 37%N n) s = true.
Proof.
  revert s. induction n as [|n IH]; intros s; simpl repeat.
  - apply like_percent.
  - apply like_percent_then. exact IH.
Qed.

Lemma datePattern_percents (n : nat) : datePattern (repeat 37%N n) = false.
Proof.
  destruct n as [|n]; [reflexivity|]. reflexivity.
Qed.

Section MoreFacts.

Variable table : list row.
Variable castText : Z -> jsstring.
Variable sqlDATE : Z -> Z.
Variable legacyParse : jsstring -> jsdate.
Variable formatDate : Z -> jsstring.

Lemma keywordMatch_percents (n : nat) (r : row) :
  keywordMatch castText sqlDATE legacyParse (repeat 37%N n) r = notDeleted r.
Proof.
  unfold keywordMatch. rewrite datePattern_percents.
  replace (existsb _ validFields) with true.
  - simpl. apply andb_true_r.
  - symmetry. unfold validFields. cbn [existsb].
    unfold fieldLike at 1. cbn [column String.eqb Ascii.eqb Bool.eqb asText].
    change (js "%" ++ repeat 37%N n ++ js "%")%list
      with (37%N :: (repeat 37%N n ++ [37%N]))%list.
    replace (repeat 37%N n ++ [37%N])%list with (repeat 37%N (S n)).
    + rewrite like_percents. reflexivity.
    + clear. induction n as [|n IH]; simpl; [reflexivity|].
      simpl in IH. rewrite <- IH. reflexivity.
Qed.

(** X2: white space before and after a keyword is of no effect on [search]:
    the query sent and the result are those for the keyword without it. *)
Theorem search_ignores_padding (pre post keyword : jsstring)
    (page limit : option Z) (sent : list QueryBuilder) :
  forallb isWhiteSpace pre = true -> forallb isWhiteSpace post = true ->
  search table castText sqlDATE legacyParse formatDate
    (pre ++ keyword ++ post)%list page limit sent
  = search table castText sqlDATE legacyParse formatDate keyword page limit sent.
Proof.
  intros Hpre Hpost. rewrite !search_run. cbv zeta.
  rewrite (trim_padded pre post keyword Hpre Hpost). reflexivity.
Qed.

(** X3: for a page and a limit of at least 1, a keyword without anything but
    white space, or made of [%] signs only (the keyword goes into the pattern
    as it is), matches every row that is not deleted: [total] is their number
    and [data] the requested page of them, by name. *)
Theorem search_blank_or_percent_keyword (keyword : jsstring) (n : nat)
    (page limit : option Z) (sent : list QueryBuilder) :
  forallb isWhiteSpace keyword = true \/ trim keyword = repeat 37%N n ->
  (1 <= default 1 page)%Z -> (1 <= default 10 limit)%Z ->
  let p := default 1 page in
  let l := default 10 limit in
  fst (search table castText sqlDATE legacyParse formatDate
         keyword page limit sent)
  = inr (mkSearchResult
           (formatBusinessInfoArrayDates formatDate
              (pageOf ((p - 1) * l) l (sort byNameAsc (filter notDeleted table))))
           (Z.of_nat (List.length (filter notDeleted table))) p l).
Proof.
  intros H _ _ p l.
  assert (Hk : exists m, trim keyword = repeat 37%N m).
  { destruct H as [H|H]; [exists 0%nat|exists n; exact H].
    rewrite <- (app_nil_r keyword).
    change (keyword ++ [])%list with (keyword ++ [] ++ [])%list.
    apply (trim_padded keyword [] []); [exact H|reflexivity]. }
  destruct Hk as (m & Hk).
  rewrite search_run. cbv zeta. fold p l. cbn [fst]. rewrite Hk.
  rewrite searchQuery_window, searchQuery_matchSet.
  rewrite (filter_ext _ _ (keywordMatch_percents m)), sort_length.
  reflexivity.
Qed.

End MoreFacts.

(** ** The outcomes of [searchByDateRange] *)

Lemma isoDateOnly_datePattern (s : jsstring) (ymd : Z * Z * Z) :
  isoDateOnly s = Some ymd -> datePattern s = true.
Proof.
  unfold isoDateOnly.
  destruct s as [|y1 [|y2 [|y3 [|y4 [|h1 [|m1 [|m2 [|h2 [|d1 [|d2 [|x s]]]]]]]]]]];
    try discriminate.
  destruct (forallb digit [y1; y2; y3; y4; m1; m2; d1; d2] && (h1 =? 45)%N
            && (h2 =? 45)%N) eqn:E; [|discriminate].
  intros _. apply andb_true_iff in E. destruct E as [E H2].
  apply andb_true_iff in E. destruct E as [E H1].
  simpl in E. rewrite !andb_true_iff in E.
  destruct E as (Y1 & Y2 & Y3 & Y4 & M1 & M2 & D1 & D2 & _).
  unfold datePattern, quant, dash_or_slash. simpl.
  rewrite Y1, Y2, Y3, Y4, M1, M2, D1, D2, H1, H2. reflexivity.
Qed.

Section RangeFacts.

Variable table : list row.
Variable castText : Z -> jsstring.
Variable sqlDATE : Z -> Z.
Variable legacyParse : jsstring -> jsdate.
Variable formatDate : Z -> jsstring.


(** X5: whatever the engine does with other strings, a date-only string
    [YYYY-MM-DD] whose month is not 01 to 12 or whose day is not 01 to 31 passes
    the validation and then, as start date beside any end date that matches
    the pattern, or as end date beside a start date the engine reads, makes
    [searchByDateRange] end in a [RangeError] with no query sent. *)
Theorem iso_out_of_bounds_is_range_error (bad other : jsstring) (y m d : Z)
    (page limit : option Z) (sent : list QueryBuilder) :
  isoDateOnly bad = Some (y, m, d) ->
  ~ (1 <= m <= 12 /\ 1 <= d <= 31)%Z ->
  datePattern other = true ->
  validateDateRange bad other sent = (inr tt, sent)
  /\ searchByDateRange table castText sqlDATE legacyParse formatDate
       bad other page limit sent
     = (inl (RangeError "Invalid time value"), sent)
  /\ (Date_parse legacyParse other <> None ->
      searchByDateRange table castText sqlDATE legacyParse formatDate
        other bad page limit sent
      = (inl (RangeError "Invalid time value"), sent)).
Proof.
  intros Hiso Hbad Hother.
  pose proof (isoDateOnly_datePattern bad _ Hiso) as Hpat.
  assert (Hnone : Date_parse legacyParse bad = None).
  { unfold Date_parse. rewrite Hiso.
    destruct ((1 <=? m) && (m <=? 12) && (1 <=? d) && (d <=? 31))%Z eqn:E;
      [|reflexivity].
    exfalso. apply Hbad. rewrite !andb_true_iff, !Z.leb_le in E. lia. }
  split; [unfold validateDateRange; rewrite Hpat, Hother; reflexivity|].
  split.
  - rewrite searchByDateRange_run. cbv zeta. rewrite Hpat, Hother, Hnone.
    reflexivity.
  - intros Hsome. rewrite searchByDateRange_run. cbv zeta.
    rewrite Hpat, Hother, Hnone. simpl.
    destruct (Date_parse legacyParse other); [reflexivity|congruence].
Qed.

(** X8: a range whose two ends are the same string matches the rows created
    at that very instant and no other: [total] counts the rows that are not
    deleted and have this [createdAt], and every record returned carries the
    display form of this instant. *)
Theorem same_day_range_is_one_instant (date : jsstring) (a : Z)
    (page limit : option Z) (sent : list QueryBuilder) :
  datePattern date = true ->
  Date_parse legacyParse date = Some a ->
  exists res,
    fst (searchByDateRange table castText sqlDATE legacyParse formatDate
           date date page limit sent) = inr res
    /\ total res
       = Z.of_nat (List.length
                     (filter (fun r => notDeleted r && (createdAt r =? a)%Z) table))
    /\ Forall (fun b => createdAt b = formatDate a) (data res).
Proof.
  intros Hpat Ha. rewrite searchByDateRange_run. cbv zeta.
  rewrite Hpat, Ha. simpl. eexists. split; [reflexivity|]. cbn [total data].
  rewrite dateRangeQuery_window, dateRangeQuery_matchSet, sort_length.
  assert (Hsame : forall r, createdBetween a a r
                            = notDeleted r && (createdAt r =? a)%Z).
  { intros r. unfold createdBetween. rewrite <- andb_assoc. f_equal.
    destruct (Z.eqb_spec (createdAt r) a) as [->|Hne].
    - rewrite Z.leb_refl. reflexivity.
    - destruct (Z.leb_spec a (createdAt r)), (Z.leb_spec (createdAt r) a);
        simpl; try reflexivity; lia. }
  split; [rewrite (filter_ext _ _ Hsame); reflexivity|].
  apply Forall_forall. intros b Hb. apply in_map_iff in Hb.
  destruct Hb as (r & <- & Hr). unfold pageOf in Hr.
  apply In_firstn, In_skipn in Hr. apply sort_In, filter_In in Hr.
  destruct Hr as [_ Hr]. rewrite Hsame in Hr.
  apply andb_true_iff in Hr. destruct Hr as [_ Hr].
  apply Z.eqb_eq in Hr. simpl. rewrite Hr. reflexivity.
Qed.

Lemma filter_length_mono {A : Type} (f g : A -> bool) (l : list A) :
  (forall x, f x = true -> g x = true) ->
  (List.length (filter f l) <= List.length (filter g l))%nat.
Proof.
  intros H. induction l as [|x l IH]; simpl; [lia|].
  destruct (f x) eqn:E.
  - rewrite (H x E). simpl. lia.
  - destruct (g x); simpl; lia.
Qed.

(** X9: widening a range never loses a match: when the first range lies
    within the second (its start not earlier, its end not later, as
    instants), the [total] of the first is at most the [total] of the
    second. *)
Theorem wider_range_has_no_fewer (start1 end1 start2 end2 : jsstring)
    (a1 b1 a2 b2 : Z) (page1 limit1 page2 limit2 : option Z)
    (sent1 sent2 : list QueryBuilder) :
  datePattern start1 = true -> datePattern end1 = true ->
  datePattern start2 = true -> datePattern end2 = true ->
  Date_parse legacyParse start1 = Some a1 ->
  Date_parse legacyParse end1 = Some b1 ->
  Date_parse legacyParse start2 = Some a2 ->
  Date_parse legacyParse end2 = Some b2 ->
  (a2 <= a1)%Z -> (b1 <= b2)%Z ->
  exists res1 res2,
    fst (searchByDateRange table castText sqlDATE legacyParse formatDate
           start1 end1 page1 limit1 sent1) = inr res1
    /\ fst (searchByDateRange table castText sqlDATE legacyParse formatDate
              start2 end2 page2 limit2 sent2) = inr res2
    /\ (total res1 <= total res2)%Z.
Proof.
  intros P1 P2 P3 P4 A1 B1 A2 B2 Ha Hb.
  rewrite !searchByDateRange_run. cbv zeta.
  rewrite P1, P2, P3, P4, A1, B1, A2, B2. simpl.
  eexists. eexists. split; [reflexivity|]. split; [reflexivity|].
  cbn [total]. rewrite !dateRangeQuery_matchSet, !sort_length.
  apply Nat2Z.inj_le. apply filter_length_mono.
  intros r. unfold createdBetween.
  rewrite !andb_true_iff, !Z.leb_le. intuition lia.
Qed.

End RangeFacts.

(** ** Pages *)



Lemma pageOf_empty_iff {A : Type} (offset limit : Z) (l : list A) :
  (0 <= offset)%Z -> (1 <= limit)%Z ->
  pageOf offset limit l = [] <-> (Z.of_nat (List.length l) <= offset)%Z.
Proof.
  intros Ho Hl. pose proof (pageOf_length offset limit l Ho) as H.
  split.
  - intros E. rewrite E in H. simpl in H. lia.
  - intros Hle. destruct (pageOf offset limit l); [reflexivity|].
    simpl in H. lia.
Qed.

Lemma pageOf_length_le {A : Type} (offset limit : Z) (l : list A) :
  (List.length (pageOf offset limit l) <= List.length l)%nat.
Proof.
  unfold pageOf. rewrite length_firstn, length_skipn. lia.
Qed.

(** An order without ties leaves one way to sort. *)
Section OneOrder.

Context {A K : Type} (key : A -> K) (le : K -> K -> Prop).

Hypothesis le_trans : forall a b c, le a b -> le b c -> le a c.
Hypothesis le_antisym : forall a b, le a b -> le b a -> a = b.





End OneOrder.






Section PageFacts.

Variable table : list row.
Variable castText : Z -> jsstring.
Variable sqlDATE : Z -> Z.
Variable legacyParse : jsstring -> jsdate.
Variable formatDate : Z -> jsstring.




(** X7: for a page and a limit of at least 1, a search returns no record
    exactly when the page starts at or past the end of the match set, that
    is when [total <= (page - 1) * limit]; [total] is reported all the same.
    The same holds for [searchByDateRange] when it returns. *)
Theorem page_past_the_end (keyword startDate endDate : jsstring)
    (page limit : Z) (sent : list QueryBuilder) :
  (1 <= page)%Z -> (1 <= limit)%Z ->
  (exists res,
      fst (search table castText sqlDATE legacyParse formatDate
             keyword (Some page) (Some limit) sent) = inr res
      /\ (data res = [] <-> (total res <= (page - 1) * limit)%Z))
  /\ (forall res,
        fst (searchByDateRange table castText sqlDATE legacyParse formatDate
               startDate endDate (Some page) (Some limit) sent) = inr res ->
        (data res = [] <-> (total res <= (page - 1) * limit)%Z)).
Proof.
  intros Hp Hl.
  assert (Ho : (0 <= (page - 1) * limit)%Z) by nia.
  assert (Hmap : forall rows : list row,
             formatBusinessInfoArrayDates formatDate rows = [] <-> rows = []).
  { intros [|r rows]; simpl; split; congruence. }
  split.
  - rewrite search_run. cbv zeta. eexists. split; [reflexivity|].
    cbn [data total default]. rewrite searchQuery_window.
    rewrite Hmap. apply pageOf_empty_iff; assumption.
  - intros res H. rewrite searchByDateRange_run in H. cbv zeta in H.
    destruct (negb (datePattern startDate) || negb (datePattern endDate));
      [discriminate|].
    destruct (Date_parse legacyParse startDate) as [a|]; [|discriminate].
    destruct (Date_parse legacyParse endDate) as [b|]; [|discriminate].
    simpl in H. injection H as <-. cbn [data total].
    rewrite dateRangeQuery_window.
    rewrite Hmap. apply pageOf_empty_iff; assumption.
Qed.

(** X11: whatever the keyword, the dates, the page and the limit, a result of
    either operation has at most [total] records, and [total] is at most the
    number of rows of the table that are not deleted. *)
Theorem result_sizes (keyword startDate endDate : jsstring)
    (page limit : option Z) (sent : list QueryBuilder) (res : SearchResult) :
  fst (search table castText sqlDATE legacyParse formatDate
         keyword page limit sent) = inr res
  \/ fst (searchByDateRange table castText sqlDATE legacyParse formatDate
            startDate endDate page limit sent) = inr res ->
  (Z.of_nat (List.length (data res)) <= total res
   <= Z.of_nat (List.length (filter notDeleted table)))%Z.
Proof.
  intros [H|H].
  - rewrite search_run in H. cbv zeta in H. simpl in H. injection H as <-.
    cbn [data total]. unfold formatBusinessInfoArrayDates.
    rewrite length_map, searchQuery_window, searchQuery_matchSet.
    split.
    + apply Nat2Z.inj_le. apply pageOf_length_le.
    + apply Nat2Z.inj_le. rewrite sort_length. apply filter_length_mono.
      intros r Hr. unfold keywordMatch in Hr.
      apply andb_true_iff in Hr. tauto.
  - rewrite searchByDateRange_run in H. cbv zeta in H.
    destruct (negb (datePattern startDate) || negb (datePattern endDate));
      [discriminate|].
    destruct (Date_parse legacyParse startDate) as [a|]; [|discriminate].
    destruct (Date_parse legacyParse endDate) as [b|]; [|discriminate].
    simpl in H. injection H as <-.
    cbn [data total]. unfold formatBusinessInfoArrayDates.
    rewrite length_map, dateRangeQuery_window, dateRangeQuery_matchSet.
    split.
    + apply Nat2Z.inj_le. apply pageOf_length_le.
    + apply Nat2Z.inj_le. rewrite sort_length. apply filter_length_mono.
      intros r Hr. unfold createdBetween in Hr.
      rewrite !andb_true_iff in Hr. tauto.
Qed.

End PageFacts.

(** ** The further properties on explicit inputs *)

(** Tabs and a no-break space around [et]. *)
Lemma search_ignores_padding_witness :
  search demoTable demoCastText demoDATE demoLegacyParse demoFormatDate
    ([9; 160] ++ js "et" ++ [32; 10])%N%list None None []
  = search demoTable demoCastText demoDATE demoLegacyParse demoFormatDate
      (js "et") None None [].
Proof.
  apply (search_ignores_padding demoTable demoCastText demoDATE demoLegacyParse
           demoFormatDate [9; 160]%N [32; 10]%N (js "et") None None []);
    reflexivity.
Defined.

(** Two [%] signs between spaces: the three rows that are not deleted. *)
Lemma search_blank_or_percent_keyword_witness :
  exists res,
    fst (search demoTable demoCastText demoDATE demoLegacyParse demoFormatDate
           (js " %% ") None None []) = inr res
    /\ map (fun b => businessName b) (data res)
       = [js "Alpha"; js "alpha"; js "beta"]
    /\ total res = 3%Z.
Proof.
  eexists. split.
  - apply (search_blank_or_percent_keyword demoTable demoCastText demoDATE
             demoLegacyParse demoFormatDate (js " %% ") 2 None None []);
      [right; reflexivity | simpl; lia | simpl; lia].
  - split; reflexivity.
Defined.

(** Month 13, as start and as end. *)
Lemma iso_out_of_bounds_is_range_error_witness :
  searchByDateRange demoTable demoCastText demoDATE demoLegacyParse
    demoFormatDate (js "2024-13-01") (js "2024/01/31") None None []
  = (inl (RangeError "Invalid time value"), [])
  /\ searchByDateRange demoTable demoCastText demoDATE demoLegacyParse
       demoFormatDate (js "2024/01/31") (js "2024-13-01") None None []
     = (inl (RangeError "Invalid time value"), []).
Proof.
  destruct (iso_out_of_bounds_is_range_error demoTable demoCastText demoDATE
              demoLegacyParse demoFormatDate (js "2024-13-01") (js "2024/01/31")
              2024 13 1 None None [] eq_refl ltac:(lia) eq_refl)
    as (_ & H1 & H2).
  split; [exact H1|]. apply H2. discriminate.
Defined.


(** Page 4 of one record when three rows match. *)
Lemma page_past_the_end_witness :
  exists res,
    fst (search demoTable demoCastText demoDATE demoLegacyParse demoFormatDate
           (js "a") (Some 4%Z) (Some 1%Z) []) = inr res
    /\ data res = [] /\ total res = 3%Z.
Proof.
  destruct (proj1 (page_past_the_end demoTable demoCastText demoDATE
                     demoLegacyParse demoFormatDate (js "a") (js "2024-01-01")
                     (js "2024-01-31") 4 1 [] ltac:(lia) ltac:(lia)))
    as (res & Hres & Hempty).
  exists res. split; [exact Hres|].
  assert (Htotal : total res = 3%Z).
  { assert (E : fst (search demoTable demoCastText demoDATE demoLegacyParse
                       demoFormatDate (js "a") (Some 4%Z) (Some 1%Z) [])
                = inr (mkSearchResult [] 3 4 1)) by reflexivity.
    rewrite E in Hres. injection Hres as <-. reflexivity. }
  split; [|exact Htotal]. apply Hempty. rewrite Htotal. lia.
Defined.

(** The first of January on both ends: the one row created at midnight. *)
Lemma same_day_range_is_one_instant_witness :
  exists res,
    fst (searchByDateRange demoTable demoCastText demoDATE demoLegacyParse
           demoFormatDate (js "2024-01-01") (js "2024-01-01") None None [])
    = inr res
    /\ total res = 1%Z
    /\ Forall (fun b => createdAt b = js "day 19723") (data res).
Proof.
  destruct (same_day_range_is_one_instant demoTable demoCastText demoDATE
              demoLegacyParse demoFormatDate (js "2024-01-01") 1704067200000
              None None [] eq_refl eq_refl)
    as (res & Hres & Htotal & Hall).
  exists res. split; [exact Hres|]. split; [exact Htotal|exact Hall].
Defined.

(** The middle of January within the whole of it. *)
Lemma wider_range_has_no_fewer_witness :
  exists res1 res2,
    fst (searchByDateRange demoTable demoCastText demoDATE demoLegacyParse
           demoFormatDate (js "2024-01-10") (js "2024-01-20") None None [])
    = inr res1
    /\ fst (searchByDateRange demoTable demoCastText demoDATE demoLegacyParse
              demoFormatDate (js "2024-01-01") (js "2024/01/31") None None [])
       = inr res2
    /\ (total res1 <= total res2)%Z.
Proof.
  apply (wider_range_has_no_fewer demoTable demoCastText demoDATE
           demoLegacyParse demoFormatDate
           (js "2024-01-10") (js "2024-01-20") (js "2024-01-01") (js "2024/01/31")
           1704844800000 1705708800000 1704067200000 1706659200000
           None None None None [] []);
    first [reflexivity | lia].
Defined.

(** One record on the page, three matches, three rows not deleted. *)
Lemma result_sizes_witness :
  exists res,
    fst (search demoTable demoCastText demoDATE demoLegacyParse demoFormatDate
           (js "a") (Some 1%Z) (Some 1%Z) []) = inr res
    /\ (Z.of_nat (List.length (data res)) <= total res
        <= Z.of_nat (List.length (filter notDeleted demoTable)))%Z.
Proof.
  eexists.
  assert (H : fst (search demoTable demoCastText demoDATE demoLegacyParse
                     demoFormatDate (js "a") (Some 1%Z) (Some 1%Z) [])
              = inr _) by reflexivity.
  split; [exact H|].
  apply (result_sizes demoTable demoCastText demoDATE demoLegacyParse
           demoFormatDate (js "a") (js "2024-01-01") (js "2024-01-31")
           (Some 1%Z) (Some 1%Z) []).
  left. exact H.
Defined.
